(** * chiaSWARM worker: the device lease discipline and the poll loop

    A shallow embedding of [swarm/worker.py].  The coroutines of the module
    become computations in a small monad that carries the device pool (the one
    piece of shared mutable state), records the externally visible actions in
    a trace, and distinguishes a normal return from a raised exception and
    from a task that blocks forever on an empty pool.

    Everything the module does not define itself (the accelerator runtime,
    the HTTP session, [do_work], the settings) is an input of the model: a
    record of answers, one per external call. *)

From Stdlib Require Import List String Ascii ZArith Bool Lia Permutation.
From Stdlib Require Import DecimalString.
From Stdlib Require DecimalNat DecimalFacts.
Import ListNotations.

Local Open Scope string_scope.
Local Open Scope list_scope.
Local Open Scope Z_scope.

Set Implicit Arguments.

(** ** Python exceptions *)

(** The exception classes the module names or can meet, with the part of the
    class hierarchy its [except] clauses depend on.  Every class here derives
    from [Exception]; exit signals (keyboard interrupt, task cancellation) are
    process shutdown and are not part of the model. *)
Inductive exn_class : Type :=
| ClientConnectorError
| ContentTypeError
| ClientResponseError
| ClientError
| TimeoutError
| JSONDecodeError
| InvalidVersion
| ValueError
| TypeError
| AttributeError
| KeyError
| RuntimeError
| Exception.

Definition exn_class_eqb (a b : exn_class) : bool :=
  match a, b with
  | ClientConnectorError, ClientConnectorError
  | ContentTypeError, ContentTypeError
  | ClientResponseError, ClientResponseError
  | ClientError, ClientError
  | TimeoutError, TimeoutError
  | JSONDecodeError, JSONDecodeError
  | InvalidVersion, InvalidVersion
  | ValueError, ValueError
  | TypeError, TypeError
  | AttributeError, AttributeError
  | KeyError, KeyError
  | RuntimeError, RuntimeError
  | Exception, Exception => true
  | _, _ => false
  end.

(** The proper ancestors of a class, nearest first. *)
Definition bases (c : exn_class) : list exn_class :=
  match c with
  | ClientConnectorError => [ClientError; Exception]
  | ContentTypeError => [ClientResponseError; ClientError; Exception]
  | ClientResponseError => [ClientError; Exception]
  | JSONDecodeError => [ValueError; Exception]
  | InvalidVersion => [ValueError; Exception]
  | Exception => []
  | _ => [Exception]
  end.

Definition issubclass (c k : exn_class) : bool :=
  existsb (exn_class_eqb k) (c :: bases c).

Record exn : Type := mk_exn { exn_cls : exn_class; exn_msg : string }.

Definition isinstance (e : exn) (k : exn_class) : bool :=
  issubclass (exn_cls e) k.

(** ** JSON values, as [json.loads] returns them *)

#[local] Unset Elimination Schemes.
Inductive json : Type :=
| JNull
| JBool (b : bool)
| JNum (z : Z)
| JStr (s : string)
| JArr (items : list json)
| JObj (fields : list (string * json)).
#[local] Set Elimination Schemes.

(** A Python object handed back by [do_work]: something [json.dumps] can
    encode, or something it cannot. *)
Inductive py_object : Type :=
| PyJson (j : json)
| PyOpaque.

Fixpoint dict_get (k : string) (fields : list (string * json)) : option json :=
  match fields with
  | [] => None
  | (k', v) :: rest => if String.eqb k k' then Some v else dict_get k rest
  end.

Definition json_is_str (s : string) (j : json) : bool :=
  match j with
  | JStr s' => String.eqb s s'
  | _ => false
  end.

(** [sub in s] on Python strings. *)
Fixpoint str_contains (sub s : string) : bool :=
  if String.prefix sub s then true
  else match s with
       | EmptyString => false
       | String _ rest => str_contains sub rest
       end.

(** ** Devices, settings, requests and responses *)

(** [swarm.gpu.device.Device]: the module reads only [device_id]. *)
Record Device : Type := mk_Device { device_id : nat }.

(** [swarm.settings]: the fields the module reads. *)
Record Settings : Type := mk_Settings {
  sdaas_uri : string;
  sdaas_token : string;
  worker_name : string;
  log_filename : string;
  log_level : string
}.

(** The module-level constants: [__version__] and the loaded settings. *)
Record config : Type := mk_config {
  version__ : string;
  settings : Settings
}.

Inductive param : Type :=
| PStr (s : string)
| PInt (z : Z).

Record request : Type := mk_request {
  rq_url : string;
  rq_timeout_total : option Z;
  rq_params : list (string * param);
  rq_headers : list (string * string)
}.

(** An [aiohttp] response: its status and reason phrase, its text, and what
    [response.json()] does when awaited. *)
Record response : Type := mk_response {
  status : Z;
  reason : string;
  text : string;
  json_body : exn + json
}.

(** [torch.cuda.mem_get_info(device)] returns the tuple [(free, total)], in
    bytes: item 0 is the memory currently free on the device, item 1 its
    total memory. *)
Definition mem_info : Type := (Z * Z)%type.

Definition free_bytes (m : mem_info) : Z := fst m.
Definition total_bytes (m : mem_info) : Z := snd m.

(** ** The outside world during one poll iteration

    One answer per external call.  [do_work] and [session_post] are impure,
    so their answers may also depend on the position of the job in the list
    being processed. *)
Record world : Type := mk_world {
  pool_choice : nat;
  mem_get_info : nat -> exn + mem_info;
  session_get : request -> exn + response;
  do_work : nat -> json -> Device -> exn + py_object;
  session_post : nat -> request -> json -> exn + response
}.

(** ** What the worker prints

    One constructor per [print] of the module, with the values its format
    string interpolates (the time of day apart). *)
Inductive message : Type :=
| MsgAsking (id : nat) (uri : string)
    (* Device {id} asking for work from the hive at {uri}... *)
| MsgDecodeError (body : string)
    (* Error: Unable to decode server response: {body} *)
| MsgJobsMissing
    (* Error: 'jobs' field is missing in the server response *)
| MsgJobsNotList
    (* Error: 'jobs' field is not a list in the server response *)
| MsgSays (uri : string) (m : json)
    (* {uri} says {m} *)
| MsgReturned (uri : string) (st : Z)
    (* {uri} returned {st} *)
| MsgConnectError (e : exn)
    (* Error: Could not connect to the server: {e} *)
| MsgRequestError (e : exn)
    (* Error: An unexpected error occurred while making the request: {e} *)
| MsgTimedOut
    (* Error: Request timed out *)
| MsgUnknownError (e : exn)
    (* Error: An unknown error occurred: {e} *)
| MsgGotWork (id : nat)
    (* Device {id} got work *)
| MsgHiveError (body : string)
    (* The hive returned an error: {body} *)
| MsgDeviceResult (id : nat) (j : json)
    (* Device {id} {j} *)
| MsgJobError (e : exn)
    (* Error: An exception occurred while processing the job or submitting
       the results: {e} *)
| MsgException (e : exn).
    (* {e}, printed by the loop of run_worker *)

(** The observable actions, in the order they happen: what is printed and
    logged, the calls of the collaborators, the operations on the pool, and
    the calls of [spawn_task]. *)
Inductive event : Type :=
| Print (m : message)
| LogInfo (s : string)
| LogDebug (s : string)
| SetupLogging (file level : string)
| TorchTuning
| Sleep (seconds : Z)
| PoolRemove (d : Device)
| PoolAdd (d : Device)
| MemGetInfo (id : nat)
| HttpGet (rq : request)
| SpawnTask (job : json) (d : Device)
| DoWork (job : json) (d : Device)
| HttpPost (rq : request) (data : json).

(** ** The monad *)

Inductive outcome (A : Type) : Type :=
| Ok (a : A)
| Raise (e : exn)
| Block.

Arguments Raise {A} e.
Arguments Block {A}.

Definition pool_t : Type := list Device.

Definition M (A : Type) : Type := pool_t -> outcome A * pool_t * list event.

Definition ret {A} (a : A) : M A := fun p => (Ok a, p, []).

Definition raise {A} (e : exn) : M A := fun p => (Raise e, p, []).

Definition bind {A B} (m : M A) (f : A -> M B) : M B :=
  fun p =>
    match m p with
    | (Ok a, p1, t1) =>
        match f a p1 with
        | (r, p2, t2) => (r, p2, t1 ++ t2)
        end
    | (Raise e, p1, t1) => (Raise e, p1, t1)
    | (Block, p1, t1) => (Block, p1, t1)
    end.

Declare Scope py_scope.
Delimit Scope py_scope with py.
Notation "x <- m ;; k" := (bind m (fun x => k))
  (at level 100, m at next level, right associativity) : py_scope.
Notation "m ;; k" := (bind m (fun _ => k))
  (at level 100, right associativity) : py_scope.
Local Open Scope py_scope.

Definition emit (e : event) : M unit := fun p => (Ok tt, p, [e]).

Definition print (m : message) : M unit := emit (Print m).

(** Awaiting an external call whose answer the world supplies. *)
Definition await {A} (r : exn + A) : M A :=
  match r with
  | inl e => raise e
  | inr a => ret a
  end.

(** [try: body / except K1 as e: h1 e / except K2 ...]: the first clause
    whose class the exception is an instance of handles it. *)
Fixpoint select_handler {A} (hs : list (exn_class * (exn -> M A))) (e : exn)
  : option (M A) :=
  match hs with
  | [] => None
  | (k, h) :: rest => if isinstance e k then Some (h e) else select_handler rest e
  end.

Definition try_except {A} (body : M A) (hs : list (exn_class * (exn -> M A)))
  : M A :=
  fun p =>
    match body p with
    | (Raise e, p1, t1) =>
        match select_handler hs e with
        | Some h => match h p1 with (r, p2, t2) => (r, p2, t1 ++ t2) end
        | None => (Raise e, p1, t1)
        end
    | other => other
    end.

(** [try: body / finally: fin]: [fin] runs whether [body] returned or raised;
    a task that never comes back from [body] never reaches it. *)
Definition try_finally {A} (body : M A) (fin : M unit) : M A :=
  fun p =>
    match body p with
    | (Block, p1, t1) => (Block, p1, t1)
    | (r, p1, t1) =>
        match fin p1 with
        | (Ok _, p2, t2) => (r, p2, t1 ++ t2)
        | (Raise e, p2, t2) => (Raise e, p2, t1 ++ t2)
        | (Block, p2, t2) => (Block, p2, t1 ++ t2)
        end
    end.

(** ** The device pool *)

(** Splitting a pool at a position. *)
Fixpoint take_nth (k : nat) (p : pool_t) {struct p}
  : option (Device * pool_t) :=
  match p with
  | [] => None
  | d :: rest =>
      match k with
      | O => Some (d, rest)
      | S k' =>
          match take_nth k' rest with
          | Some (x, rest') => Some (x, d :: rest')
          | None => None
          end
      end
  end.

(** Modelled from the spec: [swarm/gpu/device_pool.py] is not among the
    sources.  Acquiring removes and returns one available device, any of
    them ([choice] says which), and blocks the caller while none is
    available. *)
Definition remove_device_from_pool (choice : nat) : M Device :=
  fun p =>
    match take_nth (Nat.modulo choice (List.length p)) p with
    | Some (d, rest) => (Ok d, rest, [PoolRemove d])
    | None => (Block, p, [])
    end.

(** Modelled from the spec: [swarm/gpu/device_pool.py] is not among the
    sources.  Releasing returns the device to the available ones and never
    blocks. *)
Definition add_device_to_pool (d : Device) : M unit :=
  fun p => (Ok tt, p ++ [d], [PoolAdd d]).

(** ** Python helpers *)

(** [s.rstrip(c)] for a one-character argument. *)
Fixpoint rstrip (c : ascii) (s : string) : string :=
  match s with
  | EmptyString => EmptyString
  | String a rest =>
      match rstrip c rest with
      | EmptyString => if Ascii.eqb a c then EmptyString else String a EmptyString
      | r => String a r
      end
  end.

(** [str(n)] for a non-negative integer. *)
Definition str_of_nat (n : nat) : string :=
  NilZero.string_of_uint (Nat.to_uint n).

(** [k in v]: key membership on a dict, element membership on a list,
    substring on a string; the other JSON values are not containers. *)
Definition py_in (k : string) (v : json) : M bool :=
  match v with
  | JObj fields =>
      ret (match dict_get k fields with Some _ => true | None => false end)
  | JArr items => ret (existsb (json_is_str k) items)
  | JStr s => ret (str_contains k s)
  | _ => raise (mk_exn TypeError "argument is not iterable")
  end.

(** [v[k]] for a string [k]. *)
Definition py_getitem (v : json) (k : string) : M json :=
  match v with
  | JObj fields =>
      match dict_get k fields with
      | Some x => ret x
      | None => raise (mk_exn KeyError k)
      end
  | _ => raise (mk_exn TypeError "indices must be integers")
  end.

(** [v.pop(k, default)]. *)
Definition py_pop (v : json) (k : string) (default : json) : M json :=
  match v with
  | JObj fields =>
      ret (match dict_get k fields with Some x => x | None => default end)
  | JArr _ => raise (mk_exn TypeError "pop expected at most 1 argument, got 2")
  | _ => raise (mk_exn AttributeError "object has no attribute 'pop'")
  end.

(** [json.dumps(result)]; the encoded text is represented by the value it
    encodes. *)
Definition json_dumps (o : py_object) : M json :=
  match o with
  | PyJson j => ret j
  | PyOpaque => raise (mk_exn TypeError "Object is not JSON serializable")
  end.

(** [response.raise_for_status()]: raises for a status of 400 and above. *)
Definition raise_for_status (r : response) : M unit :=
  if 400 <=? status r
  then raise (mk_exn ClientResponseError (reason r))
  else ret tt.

(** ** The worker *)

Section Worker.

Variable cfg : config.

Definition hive_uri : string :=
  (rstrip "/"%char (sdaas_uri (settings cfg)) ++ "/api")%string.

Definition headers : list (string * string) :=
  [ ("Content-type", "application/json");
    ("Authorization", ("Bearer " ++ sdaas_token (settings cfg))%string);
    ("user-agent", ("chiaSWARM.worker/" ++ version__ cfg)%string) ].

Definition work_request (device : Device) (mem : mem_info) : request :=
  {| rq_url := (hive_uri ++ "/work")%string;
     rq_timeout_total := Some 10;
     rq_params :=
       [ ("worker_version", PStr (version__ cfg));
         ("worker_name",
           PStr (worker_name (settings cfg) ++ ":"
                   ++ str_of_nat (device_id device))%string);
         ("vram", PInt (snd mem)) (* mem_info[1] *) ];
     rq_headers := headers |}.

Definition results_request : request :=
  {| rq_url := (hive_uri ++ "/results")%string;
     rq_timeout_total := None;
     rq_params := [];
     rq_headers := headers |}.

Variable w : world.

(** [i] is the position of [job] in the list being processed. *)
Definition spawn_task (i : nat) (job : json) (device : Device) : M unit :=
  emit (SpawnTask job device) ;;
  print (MsgGotWork (device_id device)) ;;
  try_except
    (emit (DoWork job device) ;;
     result <- await (do_work w i job device) ;;
     data <- json_dumps result ;;
     emit (HttpPost results_request data) ;;
     resultResponse <- await (session_post w i results_request data) ;;
     if status resultResponse =? 500
     then print (MsgHiveError (text resultResponse))
     else (body <- await (json_body resultResponse) ;;
           print (MsgDeviceResult (device_id device) body)))
    [ (Exception, fun e => print (MsgJobError e)) ].

(** The [for job in ...] loop of [handle_status_200], with its flag. *)
Fixpoint for_jobs (i : nat) (jobs : list json) (device : Device)
    (did_work : bool) : M bool :=
  match jobs with
  | [] => ret did_work
  | job :: rest =>
      spawn_task i job device ;;
      for_jobs (S i) rest device true
  end.

(** An early [return] from the decoding step is the left injection. *)
Definition handle_status_200 (resp : response) (device : Device) : M Z :=
  decoded <- try_except
               (d <- await (json_body resp) ;; ret (inr d))
               [ (JSONDecodeError,
                   fun _ => print (MsgDecodeError (text resp)) ;; ret (inl 11)) ] ;;
  match decoded with
  | inl wait => ret wait
  | inr response_dict =>
      present <- py_in "jobs" response_dict ;;
      if negb present
      then (print MsgJobsMissing ;; ret 11)
      else
        (jobs <- py_getitem response_dict "jobs" ;;
         match jobs with
         | JArr items =>
             did_work <- for_jobs 0 items device false ;;
             ret (if did_work : bool then 0 else 11)
         | _ => print MsgJobsNotList ;; ret 11
         end)
  end.

Definition handle_status_400 (resp : response) : M unit :=
  response_dict <- await (json_body resp) ;;
  message <- py_pop response_dict "message" (JStr "bad worker") ;;
  print (MsgSays hive_uri message) ;;
  raise_for_status resp.

(** The [try] block of [ask_for_work], with its four [except] clauses. *)
Definition request_exchange (device : Device) (mem : mem_info) : M Z :=
  try_except
    (emit (HttpGet (work_request device mem)) ;;
     resp <- await (session_get w (work_request device mem)) ;;
     if status resp =? 200
     then handle_status_200 resp device
     else if status resp =? 400
     then (handle_status_400 resp ;; ret 11)
     else (print (MsgReturned hive_uri (status resp)) ;;
           raise_for_status resp ;;
           ret 11))
    [ (ClientConnectorError, fun e => print (MsgConnectError e) ;; ret 121);
      (ClientError, fun e => print (MsgRequestError e) ;; ret 121);
      (TimeoutError, fun _ => print MsgTimedOut ;; ret 121);
      (Exception, fun e => print (MsgUnknownError e) ;; ret 121) ].

Definition ask_for_work (device : Device) : M Z :=
  print (MsgAsking (device_id device) hive_uri) ;;
  emit (MemGetInfo (device_id device)) ;;
  mem <- await (mem_get_info w (device_id device)) ;;
  request_exchange device mem.

(** One pass through the body of [while True]; the result is the new
    [wait_seconds]. *)
Definition poll_iteration (wait_seconds : Z) : M Z :=
  emit (Sleep wait_seconds) ;;
  device <- remove_device_from_pool (pool_choice w) ;;
  try_finally
    (try_except
       (ask_for_work device)
       [ (Exception, fun e => print (MsgException e) ;; ret 121) ])
    (add_device_to_pool device).

End Worker.

(** ** Startup and the poll loop *)

(** What [torch] reports about the machine.  [torch] is an external library;
    its three queries used by [startup] are modelled after its documented
    behaviour: CUDA is available when the build has CUDA support and at least
    one device is visible, and the device count is the number of visible
    devices. *)
Record torch_runtime : Type := mk_torch_runtime {
  cuda_compiled : bool;
  cuda_device_names : list string;
  torch_version : string
}.

Definition cuda_device_count (rt : torch_runtime) : nat :=
  List.length (cuda_device_names rt).

Definition cuda_is_available (rt : torch_runtime) : bool :=
  cuda_compiled rt && negb (Nat.eqb (cuda_device_count rt) 0).

Definition cuda_get_device_name (rt : torch_runtime) (i : nat) : string :=
  nth i (cuda_device_names rt) "".

Section Startup.

(** [packaging.version]: the parsed versions, their parser (which fails on
    text that is not a version) and their strict order. *)
Variable Version : Type.
Variable version_parse : string -> option Version.
Variable version_lt : Version -> Version -> bool.

Variable cfg : config.
Variable rt : torch_runtime.

Definition parse (s : string) : M Version :=
  match version_parse s with
  | Some v => ret v
  | None => raise (mk_exn InvalidVersion s)
  end.

(** The [for i in range(0, torch.cuda.device_count())] loop. *)
Fixpoint add_devices (ids : list nat) : M unit :=
  match ids with
  | [] => ret tt
  | i :: rest =>
      emit (LogInfo ("Adding cuda device " ++ str_of_nat i ++ " - "
                       ++ cuda_get_device_name rt i)%string) ;;
      add_device_to_pool (mk_Device i) ;;
      add_devices rest
  end.

Definition startup : M unit :=
  if negb (cuda_is_available rt)
  then raise (mk_exn Exception "CUDA not present. Quitting.")
  else
    (found <- parse (torch_version rt) ;;
     minimum <- parse "2.0.0" ;;
     if version_lt found minimum
     then raise (mk_exn Exception
                   ("Pytorch must be 2.0 or greater (found " ++ torch_version rt
                      ++ "). Run install script. Quitting.")%string)
     else
       (emit (SetupLogging (log_filename (settings cfg)) (log_level (settings cfg))) ;;
        emit (LogInfo ("Version " ++ version__ cfg)%string) ;;
        emit (LogDebug ("Torch version " ++ torch_version rt)%string) ;;
        emit TorchTuning ;;
        add_devices (seq 0 (cuda_device_count rt)))).

(** The first [n] passes of [while True], starting at iteration [k]; the
    world of iteration [i] is [worlds i].  The value is the [wait_seconds]
    the next pass would sleep for. *)
Fixpoint poll_loop (worlds : nat -> world) (n k : nat) (wait_seconds : Z)
  : M Z :=
  match n with
  | O => ret wait_seconds
  | S n' =>
      next <- poll_iteration cfg (worlds k) wait_seconds ;;
      poll_loop worlds n' (S k) next
  end.

(** [run_worker], cut after [n] iterations of its loop. *)
Definition run_worker (worlds : nat -> world) (n : nat) : M Z :=
  startup ;;
  emit (LogInfo "worker") ;;
  poll_loop worlds n 0 0.

End Startup.

(** The devices [startup] enumerates on a machine. *)
Definition enumeration (rt : torch_runtime) : list Device :=
  map mk_Device (seq 0 (cuda_device_count rt)).

(** ** Reading a run *)

Definition result {A} (x : outcome A * pool_t * list event) : outcome A :=
  fst (fst x).
Definition pool_after {A} (x : outcome A * pool_t * list event) : pool_t :=
  snd (fst x).
Definition trace {A} (x : outcome A * pool_t * list event) : list event :=
  snd x.

(** The calls of the job dispatcher recorded in a trace, in order. *)
Fixpoint spawned (t : list event) : list (json * Device) :=
  match t with
  | [] => []
  | SpawnTask job d :: rest => (job, d) :: spawned rest
  | _ :: rest => spawned rest
  end.

(** The devices given back to the pool in a trace, in order. *)
Fixpoint released (t : list event) : list Device :=
  match t with
  | [] => []
  | PoolAdd d :: rest => d :: released rest
  | _ :: rest => released rest
  end.

(** The devices taken from the pool in a trace, in order. *)
Fixpoint acquired (t : list event) : list Device :=
  match t with
  | [] => []
  | PoolRemove d :: rest => d :: acquired rest
  | _ :: rest => acquired rest
  end.

(** The work requests sent in a trace, in order. *)
Fixpoint requests (t : list event) : list request :=
  match t with
  | [] => []
  | HttpGet rq :: rest => rq :: requests rest
  | _ :: rest => requests rest
  end.

(** The lines printed in a trace, in order. *)
Fixpoint printed (t : list event) : list message :=
  match t with
  | [] => []
  | Print m :: rest => m :: printed rest
  | _ :: rest => printed rest
  end.

(** ** Properties of computations *)

(** A trace without pool operations and without work requests. *)
Definition quiet (t : list event) : Prop :=
  acquired t = [] /\ released t = [] /\ requests t = [].

(** [m] leaves the pool alone, does not block, and a value it returns
    satisfies [P]. *)
Definition returns {A} (P : A -> Prop) (m : M A) : Prop :=
  forall p,
    match m p with
    | (Ok a, p', t) => P a /\ p' = p /\ quiet t
    | (Raise _, p', t) => p' = p /\ quiet t
    | (Block, _, _) => False
    end.

(** [m] does all that and does not raise either. *)
Definition total {A} (P : A -> Prop) (m : M A) : Prop :=
  forall p, exists a t, m p = (Ok a, p, t) /\ P a /\ quiet t.

(** The three waits of the backoff policy. *)
Definition wait_tier (z : Z) : Prop := z = 0 \/ z = 11 \/ z = 121.

(** The line [ask_for_work] prints for an exception raised inside its
    [try] block: the first matching [except] clause decides. *)
Definition failure_message (e : exn) : message :=
  if isinstance e ClientConnectorError then MsgConnectError e
  else if isinstance e ClientError then MsgRequestError e
  else if isinstance e TimeoutError then MsgTimedOut
  else MsgUnknownError e.

(** The hive answers the request of every device with an empty list of
    jobs. *)
Definition no_work_available (cfg : config) (w : world) : Prop :=
  forall d : Device,
  exists mem resp fields,
    mem_get_info w (device_id d) = inr mem
    /\ session_get w (work_request cfg d mem) = inr resp
    /\ status resp = 200
    /\ json_body resp = inr (JObj fields)
    /\ dict_get "jobs" fields = Some (JArr []).

(** The value of a query parameter of a request. *)
Fixpoint param_get (k : string) (ps : list (string * param)) : option param :=
  match ps with
  | [] => None
  | (k', v) :: rest => if String.eqb k k' then Some v else param_get k rest
  end.

(** [v] is an object with a field [k]. *)
Definition has_field (k : string) (v : json) : bool :=
  match v with
  | JObj fields => match dict_get k fields with Some _ => true | None => false end
  | _ => false
  end.

(** The malformed answers [handle_status_200] tells apart, each with the
    line it prints: a body that fails to decode, a body in which the
    membership test finds no [jobs] (an object without the key, and also an
    array or a string that does not contain it), and an object whose [jobs]
    is not a list. *)
Inductive malformed (resp : response) : message -> Prop :=
| undecodable (e : exn) :
    json_body resp = inl e ->
    isinstance e JSONDecodeError = true ->
    malformed resp (MsgDecodeError (text resp))
| jobs_missing (fields : list (string * json)) :
    json_body resp = inr (JObj fields) ->
    dict_get "jobs" fields = None ->
    malformed resp MsgJobsMissing
| jobs_not_list (fields : list (string * json)) (v : json) :
    json_body resp = inr (JObj fields) ->
    dict_get "jobs" fields = Some v ->
    (forall items, v <> JArr items) ->
    malformed resp MsgJobsNotList
| jobs_missing_array (items : list json) :
    json_body resp = inr (JArr items) ->
    existsb (json_is_str "jobs") items = false ->
    malformed resp MsgJobsMissing
| jobs_missing_string (s : string) :
    json_body resp = inr (JStr s) ->
    str_contains "jobs" s = false ->
    malformed resp MsgJobsMissing.

(** ** Further readings of a run *)

(** The results posted in a trace, in order. *)
Fixpoint posted (t : list event) : list (request * json) :=
  match t with
  | [] => []
  | HttpPost rq data :: rest => (rq, data) :: posted rest
  | _ :: rest => posted rest
  end.

(** The calls of [do_work] in a trace, in order. *)
Fixpoint computed (t : list event) : list (json * Device) :=
  match t with
  | [] => []
  | DoWork job d :: rest => (job, d) :: computed rest
  | _ :: rest => computed rest
  end.

(** The durations slept in a trace, in order. *)
Fixpoint sleeps (t : list event) : list Z :=
  match t with
  | [] => []
  | Sleep seconds :: rest => seconds :: sleeps rest
  | _ :: rest => sleeps rest
  end.

(** What a work request on device [d] may do: print, query the memory of a
    device, talk to the hive, and dispatch and compute jobs on [d]. *)
Definition within_lease (d : Device) (ev : event) : bool :=
  match ev with
  | Print _ | MemGetInfo _ | HttpGet _ | HttpPost _ _ => true
  | SpawnTask _ d' | DoWork _ d' => Nat.eqb (device_id d') (device_id d)
  | _ => false
  end.

(** What [startup] may do: set up logging, log, tune [torch], and put
    devices into the pool. *)
Definition at_startup (ev : event) : bool :=
  match ev with
  | SetupLogging _ _ | LogInfo _ | LogDebug _ | TorchTuning | PoolAdd _ => true
  | _ => false
  end.

(** Every event of every run of [m] satisfies [K]. *)
Definition only {A} (K : event -> bool) (m : M A) : Prop :=
  forall p, Forall (fun ev => K ev = true) (trace (m p)).

(** The results the jobs of a list give to post: those of the jobs whose
    computation returns a value that can be encoded; [i] is the position of
    the first job. *)
Fixpoint results_to_post (cfg : config) (w : world) (i : nat)
    (jobs : list json) (d : Device) : list (request * json) :=
  match jobs with
  | [] => []
  | job :: rest =>
      match do_work w i job d with
      | inr (PyJson r) => [(results_request cfg, r)]
      | _ => []
      end ++ results_to_post cfg w (S i) rest d
  end.

(** The hive answers the request of every device with a list that has a
    job. *)
Definition work_available (cfg : config) (w : world) : Prop :=
  forall d : Device,
  exists mem resp fields first others,
    mem_get_info w (device_id d) = inr mem
    /\ session_get w (work_request cfg d mem) = inr resp
    /\ status resp = 200
    /\ json_body resp = inr (JObj fields)
    /\ dict_get "jobs" fields = Some (JArr (first :: others)).

(** The exchange with the hive fails for the request of every device. *)
Definition exchange_fails (cfg : config) (w : world) : Prop :=
  forall d : Device,
  exists mem e,
    mem_get_info w (device_id d) = inr mem
    /\ session_get w (work_request cfg d mem) = inl e.

(** [s] ends with the character [c]. *)
Fixpoint ends_with (c : ascii) (s : string) : bool :=
  match s with
  | EmptyString => false
  | String a EmptyString => Ascii.eqb a c
  | String _ rest => ends_with c rest
  end.

(** The string made of [k] times the character [c]. *)
Fixpoint str_repeat (c : ascii) (k : nat) : string :=
  match k with
  | O => EmptyString
  | S k' => String c (str_repeat c k')
  end.

(** ** Concrete inputs *)

Module Sample.

(** Versions made of release segments only, [2.1.0], compared segment by
    segment with missing segments read as zero: the part of
    [packaging.version] that final releases exercise. *)
Definition digit_of (c : ascii) : option nat :=
  let n := nat_of_ascii c in
  if (Nat.leb 48 n && Nat.leb n 57)%bool then Some (n - 48)%nat else None.

Fixpoint release_segments (s : string) (cur : option nat) (acc : list nat)
  : option (list nat) :=
  match s with
  | EmptyString =>
      match cur with
      | Some n => Some (rev (n :: acc))
      | None => None
      end
  | String c rest =>
      if Ascii.eqb c "."%char
      then match cur with
           | Some n => release_segments rest None (n :: acc)
           | None => None
           end
      else match digit_of c with
           | Some g =>
               release_segments rest
                 (Some (10 * match cur with Some n => n | None => 0 end + g)%nat)
                 acc
           | None => None
           end
  end.

Definition release_parse (s : string) : option (list nat) :=
  release_segments s None [].

Fixpoint release_lt (a b : list nat) {struct b} : bool :=
  match a, b with
  | _, [] => false
  | [], y :: b' => if Nat.eqb y 0 then release_lt [] b' else true
  | x :: a', y :: b' =>
      if Nat.ltb x y then true
      else if Nat.ltb y x then false
      else release_lt a' b'
  end.

Definition cfg0 : config :=
  {| version__ := "0.27.0";
     settings :=
       {| sdaas_uri := "https://hive.example/";
          sdaas_token := "secret";
          worker_name := "rig";
          log_filename := "swarm.log";
          log_level := "INFO" |} |}.

Definition d0 : Device := mk_Device 0.
Definition d1 : Device := mk_Device 1.

Definition rt0 : torch_runtime :=
  {| cuda_compiled := true;
     cuda_device_names := ["GPU zero"; "GPU one"];
     torch_version := "2.1.0" |}.

(** A machine whose build has CUDA support but which shows no device. *)
Definition rt_no_device : torch_runtime :=
  {| cuda_compiled := true;
     cuda_device_names := [];
     torch_version := "2.1.0" |}.

Definition rt_old : torch_runtime :=
  {| cuda_compiled := true;
     cuda_device_names := ["GPU zero"];
     torch_version := "1.13.1" |}.

(** 1000 bytes free out of 8000. *)
Definition mem0 : mem_info := (1000, 8000).

Definition ok_response (body : json) : response :=
  {| status := 200; reason := "OK"; text := ""; json_body := inr body |}.

Definition job1 : json := JObj [("id", JNum 1)].
Definition job2 : json := JObj [("id", JNum 2)].

Definition boom : exn := mk_exn RuntimeError "CUDA out of memory".

(** The hive has nothing to do. *)
Definition w_no_work : world :=
  {| pool_choice := 0;
     mem_get_info := fun _ => inr mem0;
     session_get := fun _ => inr (ok_response (JObj [("jobs", JArr [])]));
     do_work := fun _ _ _ => inl boom;
     session_post := fun _ _ _ => inl boom |}.

(** The hive hands out two jobs; the computation of the first one fails,
    and the results endpoint answers the second one with status 500. *)
Definition w_two_jobs : world :=
  {| pool_choice := 0;
     mem_get_info := fun _ => inr mem0;
     session_get :=
       fun _ => inr (ok_response (JObj [("jobs", JArr [job1; job2])]));
     do_work :=
       fun i _ _ => match i with O => inl boom | _ => inr (PyJson (JStr "image")) end;
     session_post :=
       fun _ _ _ =>
         inr {| status := 500; reason := "Internal Server Error";
                text := "hive is down"; json_body := inl (mk_exn JSONDecodeError "") |} |}.



(** The hive answers 200 with the JSON text [null]. *)
Definition w_null_body : world :=
  {| pool_choice := 0;
     mem_get_info := fun _ => inr mem0;
     session_get := fun _ => inr (ok_response JNull);
     do_work := fun _ _ _ => inl boom;
     session_post := fun _ _ _ => inl boom |}.

(** The hive answers 200 with the empty object. *)
Definition w_empty_object : world :=
  {| pool_choice := 0;
     mem_get_info := fun _ => inr mem0;
     session_get := fun _ => inr (ok_response (JObj []));
     do_work := fun _ _ _ => inl boom;
     session_post := fun _ _ _ => inl boom |}.

(** The hive answers 200 with the empty array. *)
Definition w_empty_array : world :=
  {| pool_choice := 0;
     mem_get_info := fun _ => inr mem0;
     session_get := fun _ => inr (ok_response (JArr []));
     do_work := fun _ _ _ => inl boom;
     session_post := fun _ _ _ => inl boom |}.

(** The hive answers 200 with an object whose [jobs] is not a list. *)
Definition w_jobs_not_list : world :=
  {| pool_choice := 0;
     mem_get_info := fun _ => inr mem0;
     session_get := fun _ => inr (ok_response (JObj [("jobs", JNum 3)]));
     do_work := fun _ _ _ => inl boom;
     session_post := fun _ _ _ => inl boom |}.

(** The hive cannot be reached. *)
Definition w_unreachable : world :=
  {| pool_choice := 0;
     mem_get_info := fun _ => inr mem0;
     session_get := fun _ => inl (mk_exn ClientConnectorError "connection refused");
     do_work := fun _ _ _ => inl boom;
     session_post := fun _ _ _ => inl boom |}.

(** The device cannot be queried: the work request raises before its
    [try] block. *)
Definition w_device_lost : world :=
  {| pool_choice := 1;
     mem_get_info := fun _ => inl boom;
     session_get := fun _ => inl (mk_exn ClientConnectorError "connection refused");
     do_work := fun _ _ _ => inl boom;
     session_post := fun _ _ _ => inl boom |}.

Definition unavailable : response :=
  {| status := 503; reason := "Service Unavailable"; text := "";
     json_body := inl (mk_exn JSONDecodeError "") |}.

(** The hive answers with status 503. *)
Definition w_server_error : world :=
  {| pool_choice := 0;
     mem_get_info := fun _ => inr mem0;
     session_get := fun _ => inr unavailable;
     do_work := fun _ _ _ => inl boom;
     session_post := fun _ _ _ => inl boom |}.

Definition no_content : response :=
  {| status := 204; reason := "No Content"; text := "";
     json_body := inr JNull |}.

(** The hive answers with status 204. *)
Definition w_no_content : world :=
  {| pool_choice := 0;
     mem_get_info := fun _ => inr mem0;
     session_get := fun _ => inr no_content;
     do_work := fun _ _ _ => inl boom;
     session_post := fun _ _ _ => inl boom |}.

Definition html_answer : response :=
  {| status := 200; reason := "OK"; text := "<html></html>";
     json_body := inl (mk_exn ContentTypeError "text/html") |}.

(** The hive answers 200 with a page that is not JSON by its content
    type. *)
Definition w_html_answer : world :=
  {| pool_choice := 0;
     mem_get_info := fun _ => inr mem0;
     session_get := fun _ => inr html_answer;
     do_work := fun _ _ _ => inl boom;
     session_post := fun _ _ _ => inl boom |}.

Definition plain_rejection : response :=
  {| status := 400; reason := "Bad Request"; text := "go away";
     json_body := inl (mk_exn JSONDecodeError "Expecting value") |}.

(** The hive rejects the worker with status 400 and a body that is not
    JSON. *)
Definition w_rejected_plain : world :=
  {| pool_choice := 0;
     mem_get_info := fun _ => inr mem0;
     session_get := fun _ => inr plain_rejection;
     do_work := fun _ _ _ => inl boom;
     session_post := fun _ _ _ => inl boom |}.

(** The hive hands out two jobs; the computation of the first one fails,
    the result of the second one is accepted. *)
Definition w_one_of_two : world :=
  {| pool_choice := 0;
     mem_get_info := fun _ => inr mem0;
     session_get :=
       fun _ => inr (ok_response (JObj [("jobs", JArr [job1; job2])]));
     do_work :=
       fun i _ _ => match i with O => inl boom | _ => inr (PyJson (JStr "image")) end;
     session_post := fun _ _ _ => inr (ok_response (JStr "thanks")) |}.

(** Three iterations without the hive, then one with jobs. *)
Definition failures_then_work (i : nat) : world :=
  if Nat.ltb i 3 then w_unreachable else w_two_jobs.

(** Three iterations with jobs, then one without the hive. *)
Definition work_then_failure (i : nat) : world :=
  if Nat.ltb i 3 then w_two_jobs else w_unreachable.

(** The configuration [cfg0] with the address written without the
    trailing slash. *)
Definition cfg_plain : config :=
  {| version__ := "0.27.0";
     settings :=
       {| sdaas_uri := "https://hive.example";
          sdaas_token := "secret";
          worker_name := "rig";
          log_filename := "swarm.log";
          log_level := "INFO" |} |}.

End Sample.

(** * Proofs *)

Unset Implicit Arguments.

(** ** Exceptions *)

Lemma isinstance_Exception (e : exn) : isinstance e Exception = true.
Proof. destruct e as [c m]; destruct c; reflexivity. Qed.

(** ** Traces *)

Lemma spawned_app (t u : list event) : spawned (t ++ u) = spawned t ++ spawned u.
Proof.
  induction t as [|ev t IH]; simpl; [reflexivity|].
  destruct ev; simpl; rewrite ?IH; reflexivity.
Qed.

Lemma released_app (t u : list event) :
  released (t ++ u) = released t ++ released u.
Proof.
  induction t as [|ev t IH]; simpl; [reflexivity|].
  destruct ev; simpl; rewrite ?IH; reflexivity.
Qed.

Lemma acquired_app (t u : list event) :
  acquired (t ++ u) = acquired t ++ acquired u.
Proof.
  induction t as [|ev t IH]; simpl; [reflexivity|].
  destruct ev; simpl; rewrite ?IH; reflexivity.
Qed.

Lemma requests_app (t u : list event) :
  requests (t ++ u) = requests t ++ requests u.
Proof.
  induction t as [|ev t IH]; simpl; [reflexivity|].
  destruct ev; simpl; rewrite ?IH; reflexivity.
Qed.

Lemma printed_app (t u : list event) :
  printed (t ++ u) = printed t ++ printed u.
Proof.
  induction t as [|ev t IH]; simpl; [reflexivity|].
  destruct ev; simpl; rewrite ?IH; reflexivity.
Qed.

(** ** The rules of [returns] and [total] *)

Lemma quiet_nil : quiet [].
Proof. repeat split; reflexivity. Qed.

Lemma quiet_app (t u : list event) : quiet t -> quiet u -> quiet (t ++ u).
Proof.
  intros (Ha & Hr & Hq) (Ha' & Hr' & Hq'); repeat split.
  - rewrite acquired_app, Ha, Ha'; reflexivity.
  - rewrite released_app, Hr, Hr'; reflexivity.
  - rewrite requests_app, Hq, Hq'; reflexivity.
Qed.

Lemma quiet_cons (ev : event) (t : list event) :
  quiet [ev] -> quiet t -> quiet (ev :: t).
Proof. intros H H'; apply (quiet_app [ev] t H H'). Qed.

Section Rules.

Context {A B : Type}.

Lemma returns_ret (P : A -> Prop) (a : A) : P a -> returns P (ret a).
Proof. intros H p; simpl; auto using quiet_nil. Qed.

Lemma returns_raise (P : A -> Prop) (e : exn) : returns P (raise e).
Proof. intros p; simpl; auto using quiet_nil. Qed.

Lemma returns_await (P : A -> Prop) (r : exn + A) :
  (forall a, r = inr a -> P a) -> returns P (await r).
Proof.
  intros H; destruct r as [e|a]; simpl.
  - apply returns_raise.
  - apply returns_ret; auto.
Qed.

Lemma returns_weaken (P Q : A -> Prop) (m : M A) :
  (forall a, P a -> Q a) -> returns P m -> returns Q m.
Proof.
  intros HPQ H p; specialize (H p).
  destruct (m p) as [[[a|e|] p1] t1]; intuition.
Qed.

Lemma total_returns (P : A -> Prop) (m : M A) : total P m -> returns P m.
Proof.
  intros H p; destruct (H p) as (a & t & E & Pa & Qt); rewrite E; auto.
Qed.

Lemma returns_bind (Q : A -> Prop) (P : B -> Prop) (m : M A) (f : A -> M B) :
  returns Q m -> (forall a, Q a -> returns P (f a)) -> returns P (bind m f).
Proof.
  intros Hm Hf p; unfold bind; specialize (Hm p).
  destruct (m p) as [[[a|e|] p1] t1]; auto.
  destruct Hm as (Qa & -> & Qt); specialize (Hf a Qa p).
  destruct (f a p) as [[[b|e|] p2] t2]; intuition auto using quiet_app.
Qed.

Lemma total_bind (Q : A -> Prop) (P : B -> Prop) (m : M A) (f : A -> M B) :
  total Q m -> (forall a, Q a -> total P (f a)) -> total P (bind m f).
Proof.
  intros Hm Hf p; unfold bind.
  destruct (Hm p) as (a & t & E & Qa & Qt); rewrite E.
  destruct (Hf a Qa p) as (b & u & E' & Pb & Qu); rewrite E'.
  exists b, (t ++ u); auto using quiet_app.
Qed.

End Rules.

Lemma total_ret {A} (P : A -> Prop) (a : A) : P a -> total P (ret a).
Proof. intros H p; exists a, []; auto using quiet_nil. Qed.

Lemma total_emit (P : unit -> Prop) (ev : event) :
  P tt -> quiet [ev] -> total P (emit ev).
Proof. intros H Q p; exists tt, [ev]; auto. Qed.

Lemma total_print (P : unit -> Prop) (m : message) : P tt -> total P (print m).
Proof. intros H; apply total_emit; [exact H | repeat split; reflexivity]. Qed.

Lemma returns_emit (P : unit -> Prop) (ev : event) :
  P tt -> quiet [ev] -> returns P (emit ev).
Proof. intros H Q; apply total_returns, total_emit; assumption. Qed.

Lemma returns_print (P : unit -> Prop) (m : message) :
  P tt -> returns P (print m).
Proof. intros H; apply total_returns, total_print, H. Qed.

(** A [try] whose clauses cover every exception and do not raise themselves
    does not raise. *)
Lemma total_try_except {A} (P : A -> Prop) (body : M A)
    (hs : list (exn_class * (exn -> M A))) :
  returns P body ->
  (forall e, exists h, select_handler hs e = Some h /\ total P h) ->
  total P (try_except body hs).
Proof.
  intros Hb Hh p; unfold try_except; specialize (Hb p).
  destruct (body p) as [[[a|e|] p1] t1].
  - destruct Hb as (Pa & -> & Qt); exists a, t1; auto.
  - destruct Hb as [-> Qt]; destruct (Hh e) as (h & -> & Ht).
    destruct (Ht p) as (a & t & -> & Pa & Qt'); exists a, (t1 ++ t).
    auto using quiet_app.
  - contradiction.
Qed.

(** A [try] keeps what its body and its clauses guarantee. *)
Lemma returns_try_except {A} (P : A -> Prop) (body : M A)
    (hs : list (exn_class * (exn -> M A))) :
  returns P body ->
  (forall e h, select_handler hs e = Some h -> returns P h) ->
  returns P (try_except body hs).
Proof.
  intros Hb Hh p; unfold try_except; specialize (Hb p).
  destruct (body p) as [[[a|e|] p1] t1]; auto.
  destruct Hb as [-> Qt]; destruct (select_handler hs e) as [h|] eqn:E; auto.
  specialize (Hh e h E p); destruct (h p) as [[[b|e'|] p2] t2];
    intuition auto using quiet_app.
Qed.


(** One step of a proof that a computation neither touches the pool nor
    blocks, following the shape of the computation. *)
Ltac returns_step :=
  match goal with
  | |- returns _ (ret _) => apply returns_ret
  | |- returns _ (raise _) => apply returns_raise
  | |- returns _ (print _) => apply returns_print
  | |- returns _ (emit _) => apply returns_emit; [| repeat split; reflexivity]
  | |- returns _ (await _) => apply returns_await; intros
  | |- returns _ (bind _ _) =>
      eapply returns_bind with (Q := fun _ => True); [| intros ? _]
  | |- returns _ (if ?b then _ else _) => destruct b
  | |- returns _ (match ?x with _ => _ end) => destruct x
  | |- True => exact I
  end.

Ltac run_done :=
  eexists; split; [reflexivity | split; [reflexivity | repeat split; reflexivity]].

(** ** The job dispatcher *)

Section WorkerFacts.

Variable cfg : config.
Variable w : world.

(** [spawn_task] always returns: whatever the computation and the results
    endpoint do, it records one call and leaves the pool alone. *)
Lemma spawn_task_run (i : nat) (job : json) (d : Device) (p : pool_t) :
  exists t,
    spawn_task cfg w i job d p = (Ok tt, p, SpawnTask job d :: t)
    /\ spawned t = [] /\ quiet t.
Proof.
  unfold spawn_task, bind, try_except, emit, print, await; simpl.
  destruct (do_work w i job d) as [e|[j|]]; simpl;
    rewrite ?isinstance_Exception; simpl.
  1, 3: run_done.
  destruct (session_post w i (results_request cfg) j) as [e|r]; simpl;
    rewrite ?isinstance_Exception; simpl.
  1: run_done.
  destruct (status r =? 500); simpl.
  1: run_done.
  destruct (json_body r) as [e|b]; simpl; rewrite ?isinstance_Exception; simpl;
    run_done.
Qed.

Lemma spawn_task_total (i : nat) (job : json) (d : Device) :
  total (fun _ => True) (spawn_task cfg w i job d).
Proof.
  intros p; destruct (spawn_task_run i job d p) as (t & E & _ & Qt).
  exists tt, (SpawnTask job d :: t); split; [exact E|]; split; [exact I|].
  apply quiet_cons; [repeat split; reflexivity | exact Qt].
Qed.

(** The loop over the jobs calls the dispatcher on each job, in order, and
    its flag ends up set exactly when there was a job. *)
Lemma for_jobs_run (jobs : list json) (d : Device) :
  forall (i : nat) (b : bool) (p : pool_t),
  exists t,
    for_jobs cfg w i jobs d b p
      = (Ok (match jobs with [] => b | _ :: _ => true end), p, t)
    /\ spawned t = map (fun job => (job, d)) jobs /\ quiet t.
Proof.
  induction jobs as [|job rest IH]; intros i b p; simpl.
  - exists []; repeat split; reflexivity.
  - unfold bind.
    destruct (spawn_task_run i job d p) as (t & -> & St & Qt).
    destruct (IH (S i) true p) as (u & -> & Su & Qu).
    exists ((SpawnTask job d :: t) ++ u); split.
    + destruct rest; reflexivity.
    + split.
      * rewrite spawned_app; simpl; rewrite St, Su; reflexivity.
      * apply quiet_app; [|exact Qu].
        apply quiet_cons; [repeat split; reflexivity | exact Qt].
Qed.

Lemma for_jobs_total (jobs : list json) (d : Device) (i : nat) (b : bool) :
  total (fun _ => True) (for_jobs cfg w i jobs d b).
Proof.
  intros p; destruct (for_jobs_run jobs d i b p) as (t & E & _ & Qt).
  eexists _, t; split; [exact E|]; split; [exact I | exact Qt].
Qed.

(** ** The response handlers *)

Lemma py_in_returns (k : string) (v : json) : returns (fun _ => True) (py_in k v).
Proof. unfold py_in; repeat returns_step. Qed.

Lemma py_getitem_returns (v : json) (k : string) :
  returns (fun _ => True) (py_getitem v k).
Proof. unfold py_getitem; repeat returns_step. Qed.

Lemma py_pop_returns (v : json) (k : string) (dflt : json) :
  returns (fun _ => True) (py_pop v k dflt).
Proof. unfold py_pop; repeat returns_step. Qed.

Lemma raise_for_status_returns (r : response) :
  returns (fun _ => True) (raise_for_status r).
Proof. unfold raise_for_status; repeat returns_step. Qed.


(** [handle_status_200] returns 0 or 11 when it returns. *)
Lemma handle_status_200_returns (resp : response) (d : Device) :
  returns (fun z => z = 0 \/ z = 11) (handle_status_200 cfg w resp d).
Proof.
  unfold handle_status_200.
  eapply returns_bind
    with (Q := fun dec => match dec with inl z => z = 11 | inr _ => True end).
  - apply returns_try_except.
    + repeat returns_step.
    + intros e h; simpl.
      destruct (isinstance e JSONDecodeError); [|discriminate].
      intros [= <-]; repeat returns_step; reflexivity.
  - intros [z|body] Hz.
    + apply returns_ret; auto.
    + eapply returns_bind with (Q := fun _ => True);
        [apply py_in_returns | intros present _].
      destruct (negb present).
      * repeat returns_step; auto.
      * eapply returns_bind with (Q := fun _ => True);
          [apply py_getitem_returns | intros jobs _].
        destruct jobs; try (repeat returns_step; auto; fail).
        eapply returns_bind with (Q := fun _ => True);
          [apply total_returns, for_jobs_total | intros [|] _];
          apply returns_ret; auto.
Qed.

Lemma handle_status_400_returns (resp : response) :
  returns (fun _ => True) (handle_status_400 cfg resp).
Proof.
  unfold handle_status_400.
  returns_step; [repeat returns_step|].
  returns_step; [apply py_pop_returns|].
  returns_step; [repeat returns_step|].
  apply raise_for_status_returns.
Qed.

(** On an object whose [jobs] is a list, [handle_status_200] dispatches the
    jobs in order and returns 0, or 11 for the empty list. *)
Lemma handle_status_200_jobs (resp : response) (d : Device)
    (fields : list (string * json)) (items : list json) (p : pool_t) :
  json_body resp = inr (JObj fields) ->
  dict_get "jobs" fields = Some (JArr items) ->
  exists t,
    handle_status_200 cfg w resp d p
      = (Ok (match items with [] => 11 | _ :: _ => 0 end), p, t)
    /\ spawned t = map (fun job => (job, d)) items
    /\ printed t = printed (trace (for_jobs cfg w 0 items d false p)).
Proof.
  intros Hb Hj.
  unfold handle_status_200, bind, try_except, await, py_in, py_getitem.
  rewrite Hb; simpl; rewrite Hj; simpl; rewrite ?Hj; simpl.
  destruct (for_jobs_run items d 0%nat false p) as (t & E & St & _).
  rewrite E; simpl; rewrite app_nil_r.
  exists t; split; [destruct items; reflexivity | auto].
Qed.

(** On a malformed answer, [handle_status_200] prints one line and returns
    11. *)
Lemma handle_status_200_malformed (resp : response) (d : Device)
    (m : message) (p : pool_t) :
  malformed resp m ->
  handle_status_200 cfg w resp d p = (Ok 11, p, [Print m]).
Proof.
  intros [e Hb He | fields Hb Hj | fields v Hb Hj Hv | items Hb Hj | s Hb Hj];
    unfold handle_status_200, bind, try_except, await, py_in, py_getitem, print, emit;
    rewrite Hb; simpl.
  - rewrite He; reflexivity.
  - rewrite Hj; reflexivity.
  - rewrite Hj; simpl; rewrite ?Hj; simpl.
    destruct v; try reflexivity.
    exfalso; eapply Hv; reflexivity.
  - rewrite Hj; reflexivity.
  - rewrite Hj; reflexivity.
Qed.

(** ** The work request *)

(** The four [except] clauses of [ask_for_work] catch every exception and
    answer 121. *)
Lemma ask_for_work_handlers (e : exn) :
  exists h,
    select_handler
      [ (ClientConnectorError, fun e => print (MsgConnectError e) ;; ret 121);
        (ClientError, fun e => print (MsgRequestError e) ;; ret 121);
        (TimeoutError, fun _ => print MsgTimedOut ;; ret 121);
        (Exception, fun e => print (MsgUnknownError e) ;; ret 121) ] e = Some h
    /\ total (fun z => z = 121) h.
Proof.
  simpl; rewrite isinstance_Exception.
  destruct (isinstance e ClientConnectorError);
    [|destruct (isinstance e ClientError);
      [|destruct (isinstance e TimeoutError)]];
    (eexists; split; [reflexivity|]);
    (eapply total_bind with (Q := fun _ => True);
      [apply total_print; exact I | intros _ _; apply total_ret; reflexivity]).
Qed.

(** A [try] block that starts by recording an event. *)
Lemma try_except_emit {A} (ev : event) (m : M A)
    (hs : list (exn_class * (exn -> M A))) (p : pool_t) :
  try_except (emit ev ;; m) hs p
    = match try_except m hs p with (r, p', t) => (r, p', ev :: t) end.
Proof.
  unfold try_except, bind, emit; simpl.
  destruct (m p) as [[[a|e|] p1] t1]; simpl; try reflexivity.
  destruct (select_handler hs e) as [h|]; [|reflexivity].
  destruct (h p1) as [[r p2] t2]; reflexivity.
Qed.

(** The [try] block of [ask_for_work]: whatever happens in the exchange, the
    block sends one request and returns one of the three waits. *)
Lemma request_exchange_run (d : Device) (mem : mem_info) (p : pool_t) :
  exists z t,
    request_exchange cfg w d mem p
      = (Ok z, p, HttpGet (work_request cfg d mem) :: t)
    /\ wait_tier z /\ quiet t.
Proof.
  unfold request_exchange; rewrite try_except_emit.
  match goal with
  | |- context [try_except ?m ?hs p] =>
      assert (T : total wait_tier (try_except m hs))
  end.
  { apply total_try_except.
    - eapply returns_bind with (Q := fun _ => True);
        [repeat returns_step | intros resp _].
      destruct (status resp =? 200).
      + eapply returns_weaken; [|apply handle_status_200_returns].
        unfold wait_tier; intuition.
      + destruct (status resp =? 400).
        * returns_step; [apply handle_status_400_returns|].
          apply returns_ret; unfold wait_tier; auto.
        * returns_step; [repeat returns_step|].
          returns_step; [apply raise_for_status_returns|].
          apply returns_ret; unfold wait_tier; auto.
    - intros e; destruct (ask_for_work_handlers e) as (h & E & T).
      exists h; split; [exact E|].
      intros q; destruct (T q) as (a & t & Er & -> & Qt).
      exists 121, t; unfold wait_tier; auto. }
  destruct (T p) as (z & t & -> & Hz & Qt); exists z, t; auto.
Qed.

(** [ask_for_work] raises only when the memory query does, before any
    request is sent; otherwise it sends one request, built from the answer
    of that query, and returns one of the three waits.  It leaves the pool
    alone and never blocks. *)
Lemma ask_for_work_run (d : Device) (p : pool_t) :
  (exists e,
     mem_get_info w (device_id d) = inl e
     /\ ask_for_work cfg w d p
         = (Raise e, p,
            [Print (MsgAsking (device_id d) (hive_uri cfg));
             MemGetInfo (device_id d)]))
  \/ (exists mem z t,
        mem_get_info w (device_id d) = inr mem
        /\ ask_for_work cfg w d p
            = (Ok z, p,
               Print (MsgAsking (device_id d) (hive_uri cfg))
                 :: MemGetInfo (device_id d)
                 :: HttpGet (work_request cfg d mem) :: t)
        /\ request_exchange cfg w d mem p
            = (Ok z, p, HttpGet (work_request cfg d mem) :: t)
        /\ wait_tier z /\ quiet t).
Proof.
  unfold ask_for_work, bind, print, emit, await; simpl.
  destruct (mem_get_info w (device_id d)) as [e|mem]; simpl.
  - left; exists e; auto.
  - right; destruct (request_exchange_run d mem p) as (z & t & E & Hz & Qt).
    exists mem, z, t; rewrite E; auto.
Qed.

End WorkerFacts.

(** ** The pool *)

Lemma take_nth_perm (k : nat) (p : pool_t) (d : Device) (rest : pool_t) :
  take_nth k p = Some (d, rest) -> Permutation p (d :: rest).
Proof.
  revert k d rest; induction p as [|x p IH]; intros k d rest; simpl.
  - intros [=].
  - destruct k as [|k].
    + intros [= -> ->]; apply Permutation_refl.
    + destruct (take_nth k p) as [[y rest']|] eqn:E; [|intros [=]].
      intros [= -> <-].
      apply perm_trans with (x :: d :: rest').
      * apply perm_skip, (IH k); exact E.
      * apply perm_swap.
Qed.

Lemma take_nth_some (k : nat) (p : pool_t) :
  (k < List.length p)%nat -> exists d rest, take_nth k p = Some (d, rest).
Proof.
  revert k; induction p as [|x p IH]; intros k; simpl.
  - lia.
  - destruct k as [|k]; intros H.
    + eauto.
    + destruct (IH k) as (d & rest & ->); [lia | eauto].
Qed.

(** Acquiring from a pool that is not empty succeeds, whichever device is
    chosen. *)
Lemma remove_device_some (choice : nat) (p : pool_t) :
  p <> [] ->
  exists d rest,
    take_nth (Nat.modulo choice (List.length p)) p = Some (d, rest).
Proof.
  intros H; apply take_nth_some, Nat.mod_upper_bound.
  destruct p; [contradiction | simpl; lia].
Qed.

Lemma pool_after_release_perm (d : Device) (rest p : pool_t) :
  Permutation p (d :: rest) -> Permutation (rest ++ [d]) p.
Proof.
  intros H; apply Permutation_sym, perm_trans with (d :: rest); [exact H|].
  apply Permutation_cons_append.
Qed.

(** ** One iteration of the loop *)

Section LoopFacts.

Variable cfg : config.

(** What an iteration does once it holds device [d]: it runs the work
    request on the remaining pool, turns an exception into the wait 121
    after printing it, and gives [d] back. *)
Lemma poll_iteration_run (w : world) (wait : Z) (p : pool_t)
    (d : Device) (rest : pool_t) :
  take_nth (Nat.modulo (pool_choice w) (List.length p)) p = Some (d, rest) ->
  exists z u,
    poll_iteration cfg w wait p
      = (Ok z, rest ++ [d],
         Sleep wait :: PoolRemove d
           :: (trace (ask_for_work cfg w d rest) ++ u) ++ [PoolAdd d])
    /\ acquired (trace (ask_for_work cfg w d rest) ++ u) = []
    /\ released (trace (ask_for_work cfg w d rest) ++ u) = []
    /\ wait_tier z
    /\ (forall z', result (ask_for_work cfg w d rest) = Ok z' ->
          z = z' /\ u = [])
    /\ (forall e, result (ask_for_work cfg w d rest) = Raise e ->
          z = 121 /\ u = [Print (MsgException e)]).
Proof.
  intros Hd.
  unfold poll_iteration, bind, emit, remove_device_from_pool, try_finally,
    try_except, add_device_to_pool; simpl.
  rewrite Hd.
  destruct (ask_for_work_run cfg w d rest)
    as [(e & _ & ->) | (mem & z & t & _ & -> & _ & Hz & Qa & Qr & _)]; simpl.
  - rewrite isinstance_Exception; simpl.
    exists 121, [Print (MsgException e)]; unfold result, trace; simpl.
    repeat split; try congruence.
    right; right; reflexivity.
  - exists z, []; unfold result, trace; simpl; rewrite app_nil_r.
    repeat split; auto; congruence.
Qed.

(** An iteration on a pool that is not empty completes, with one of the
    three waits, one acquisition and one release of the same device, and a
    pool holding the same devices as before. *)
Lemma poll_iteration_ok (w : world) (wait : Z) (p : pool_t) :
  p <> [] ->
  exists z p' t d,
    poll_iteration cfg w wait p = (Ok z, p', t)
    /\ wait_tier z /\ Permutation p' p
    /\ acquired t = [d] /\ released t = [d].
Proof.
  intros Hp; destruct (remove_device_some (pool_choice w) p Hp) as (d & rest & Hd).
  destruct (poll_iteration_run w wait p d rest Hd)
    as (z & u & E & Qa & Qr & Hz & _).
  eexists z, (rest ++ [d]), _, d; split; [exact E|]; split; [exact Hz|].
  split; [apply pool_after_release_perm, take_nth_perm with (1 := Hd)|].
  split; simpl.
  - rewrite acquired_app, Qa; reflexivity.
  - rewrite released_app, Qr; reflexivity.
Qed.

Lemma perm_nonempty (p q : pool_t) : Permutation p q -> q <> [] -> p <> [].
Proof.
  intros H Hq ->; apply Hq, Permutation_nil; exact H.
Qed.

(** The loop never stops by itself: any number of iterations on a pool that
    is not empty completes, and the pool holds the same devices afterwards. *)
Lemma poll_loop_ok (worlds : nat -> world) (n : nat) :
  forall (k : nat) (wait : Z) (p : pool_t),
    p <> [] ->
    exists z p' t,
      poll_loop cfg worlds n k wait p = (Ok z, p', t)
      /\ Permutation p' p
      /\ (wait_tier wait -> wait_tier z)
      /\ (n <> 0%nat -> wait_tier z).
Proof.
  induction n as [|n IH]; intros k wait p Hp; simpl.
  - exists wait, p, []; repeat split; auto; contradiction.
  - unfold bind.
    destruct (poll_iteration_ok (worlds k) wait p Hp)
      as (z & p1 & t1 & d & -> & Hz & Hperm & _).
    destruct (IH (S k) z p1 (perm_nonempty p1 p Hperm Hp))
      as (z' & p2 & t2 & -> & Hperm' & Hz' & _).
    exists z', p2, (t1 ++ t2); repeat split; auto.
    apply perm_trans with p1; assumption.
Qed.

End LoopFacts.

(** ** Startup *)

Section StartupFacts.

Variable Version : Type.
Variable version_parse : string -> option Version.
Variable version_lt : Version -> Version -> bool.
Variable cfg : config.
Variable rt : torch_runtime.

Lemma add_devices_run (ids : list nat) :
  forall p : pool_t,
  exists t,
    add_devices rt ids p = (Ok tt, p ++ map mk_Device ids, t)
    /\ released t = map mk_Device ids /\ acquired t = [].
Proof.
  induction ids as [|i ids IH]; intros p; simpl.
  - exists []; rewrite app_nil_r; auto.
  - unfold bind, emit, add_device_to_pool; simpl.
    destruct (IH (p ++ [mk_Device i])) as (t & -> & Hr & Ha).
    eexists; split; [rewrite <- app_assoc; reflexivity|].
    simpl; rewrite Hr, Ha; auto.
Qed.

Lemma available_devices :
  cuda_is_available rt = true -> enumeration rt <> [].
Proof.
  unfold cuda_is_available, enumeration, cuda_device_count.
  destruct (cuda_device_names rt); simpl.
  - rewrite andb_false_r; discriminate.
  - discriminate.
Qed.

(** When its three preconditions hold, [startup] puts every enumerated
    device into the pool, in order. *)
Lemma startup_run (found minimum : Version) (p : pool_t) :
  cuda_is_available rt = true ->
  version_parse (torch_version rt) = Some found ->
  version_parse "2.0.0" = Some minimum ->
  version_lt found minimum = false ->
  exists t,
    startup version_parse version_lt cfg rt p
      = (Ok tt, p ++ enumeration rt, t)
    /\ released t = enumeration rt /\ acquired t = [].
Proof.
  intros Ha Hf Hm Hlt; unfold startup, parse, bind, emit.
  rewrite Ha, Hf, Hm; simpl; rewrite Hlt.
  destruct (add_devices_run (seq 0 (cuda_device_count rt)) p)
    as (t & -> & Hr & Hacq).
  eexists; split; [reflexivity|]; simpl; auto.
Qed.

(** [startup] returns only when its preconditions hold. *)
Lemma startup_inv (p : pool_t) :
  result (startup version_parse version_lt cfg rt p) = Ok tt ->
  cuda_is_available rt = true
  /\ exists found minimum,
       version_parse (torch_version rt) = Some found
       /\ version_parse "2.0.0" = Some minimum
       /\ version_lt found minimum = false.
Proof.
  unfold startup, parse, bind, result.
  destruct (cuda_is_available rt); simpl; [|discriminate].
  destruct (version_parse (torch_version rt)) as [found|]; simpl;
    [|discriminate].
  destruct (version_parse "2.0.0") as [minimum|]; simpl; [|discriminate].
  destruct (version_lt found minimum) eqn:E; simpl; [discriminate|].
  intros _; split; [reflexivity|]; exists found, minimum; auto.
Qed.

End StartupFacts.

(** * The specification, statement by statement *)

(** ** Answers with status 200 *)

(** How [ask_for_work] continues once the hive has answered with status
    200: it passes on what [handle_status_200] returns. *)
Lemma ask_for_work_200 (cfg : config) (w : world) (d : Device)
    (mem : mem_info) (resp : response) (p : pool_t) (z : Z) (t : list event) :
  mem_get_info w (device_id d) = inr mem ->
  session_get w (work_request cfg d mem) = inr resp ->
  status resp = 200 ->
  handle_status_200 cfg w resp d p = (Ok z, p, t) ->
  ask_for_work cfg w d p
    = (Ok z, p,
       Print (MsgAsking (device_id d) (hive_uri cfg))
         :: MemGetInfo (device_id d)
         :: HttpGet (work_request cfg d mem) :: t).
Proof.
  intros Hmem Hget Hst Hh.
  unfold ask_for_work, request_exchange, bind, print, emit, await, try_except.
  simpl; rewrite Hmem; simpl; rewrite Hget; simpl; rewrite Hst; simpl.
  rewrite Hh; reflexivity.
Qed.

(** The work request on an object whose [jobs] is a list. *)
Lemma ask_for_work_jobs (cfg : config) (w : world) (d : Device)
    (mem : mem_info) (resp : response) (fields : list (string * json))
    (items : list json) (p : pool_t) :
  mem_get_info w (device_id d) = inr mem ->
  session_get w (work_request cfg d mem) = inr resp ->
  status resp = 200 ->
  json_body resp = inr (JObj fields) ->
  dict_get "jobs" fields = Some (JArr items) ->
  spawned (trace (ask_for_work cfg w d p)) = map (fun job => (job, d)) items
  /\ result (ask_for_work cfg w d p)
     = Ok (match items with [] => 11 | _ :: _ => 0 end).
Proof.
  intros Hmem Hget Hst Hb Hj.
  destruct (handle_status_200_jobs cfg w resp d fields items p Hb Hj)
    as (t & E & St & _).
  rewrite (ask_for_work_200 cfg w d mem resp p _ t Hmem Hget Hst E).
  split; [exact St | reflexivity].
Qed.

(** C3: for an answer with status 200 whose body is an object with a list
    under [jobs], the work request calls the job dispatcher once per job of
    the list, in the order of the list, and returns 0 when the list has a job
    and 11 when it is empty. *)
Theorem jobs_dispatched_in_order (cfg : config) (w : world) (d : Device)
    (mem : mem_info) (resp : response) (fields : list (string * json))
    (items : list json) (p : pool_t) :
  mem_get_info w (device_id d) = inr mem ->
  session_get w (work_request cfg d mem) = inr resp ->
  status resp = 200 ->
  json_body resp = inr (JObj fields) ->
  dict_get "jobs" fields = Some (JArr items) ->
  spawned (trace (ask_for_work cfg w d p)) = map (fun job => (job, d)) items
  /\ result (ask_for_work cfg w d p)
     = Ok (match items with [] => 11 | _ :: _ => 0 end).
Proof. exact (ask_for_work_jobs cfg w d mem resp fields items p). Qed.

Lemma jobs_dispatched_in_order_witness :
  (spawned (trace (ask_for_work Sample.cfg0 Sample.w_two_jobs Sample.d0
                     [Sample.d1]))
     = [(Sample.job1, Sample.d0); (Sample.job2, Sample.d0)]
   /\ result (ask_for_work Sample.cfg0 Sample.w_two_jobs Sample.d0 [Sample.d1])
      = Ok 0)
  /\ (spawned (trace (ask_for_work Sample.cfg0 Sample.w_no_work Sample.d0
                        [Sample.d1])) = []
      /\ result (ask_for_work Sample.cfg0 Sample.w_no_work Sample.d0 [Sample.d1])
         = Ok 11).
Proof.
  split.
  - exact (jobs_dispatched_in_order Sample.cfg0 Sample.w_two_jobs Sample.d0
             Sample.mem0
             (Sample.ok_response (JObj [("jobs", JArr [Sample.job1; Sample.job2])]))
             [("jobs", JArr [Sample.job1; Sample.job2])]
             [Sample.job1; Sample.job2] [Sample.d1]
             eq_refl eq_refl eq_refl eq_refl eq_refl).
  - exact (jobs_dispatched_in_order Sample.cfg0 Sample.w_no_work Sample.d0
             Sample.mem0 (Sample.ok_response (JObj [("jobs", JArr [])]))
             [("jobs", JArr [])] [] [Sample.d1]
             eq_refl eq_refl eq_refl eq_refl eq_refl).
Defined.

(** Where the validation of [handle_status_200] works: for an answer with
    status 200 whose body fails to decode as JSON, or in which the
    membership test finds no [jobs], or which is an object whose [jobs] is
    not a list, the work request prints the one line that names the problem,
    does not call the job dispatcher, does not raise, and returns 11. *)
Theorem malformed_answer_waits_11 (cfg : config) (w : world) (d : Device)
    (mem : mem_info) (resp : response) (m : message) (p : pool_t) :
  mem_get_info w (device_id d) = inr mem ->
  session_get w (work_request cfg d mem) = inr resp ->
  status resp = 200 ->
  malformed resp m ->
  ask_for_work cfg w d p
    = (Ok 11, p,
       [ Print (MsgAsking (device_id d) (hive_uri cfg));
         MemGetInfo (device_id d);
         HttpGet (work_request cfg d mem);
         Print m ])
  /\ spawned (trace (ask_for_work cfg w d p)) = [].
Proof.
  intros Hmem Hget Hst Hm.
  rewrite (ask_for_work_200 cfg w d mem resp p 11 [Print m] Hmem Hget Hst
             (handle_status_200_malformed cfg w resp d m p Hm)).
  split; reflexivity.
Qed.

Lemma malformed_answer_waits_11_witness :
  ask_for_work Sample.cfg0 Sample.w_jobs_not_list Sample.d0 [Sample.d1]
    = (Ok 11, [Sample.d1],
       [ Print (MsgAsking 0 (hive_uri Sample.cfg0));
         MemGetInfo 0;
         HttpGet (work_request Sample.cfg0 Sample.d0 Sample.mem0);
         Print MsgJobsNotList ])
  /\ spawned (trace (ask_for_work Sample.cfg0 Sample.w_jobs_not_list
                       Sample.d0 [Sample.d1])) = [].
Proof.
  refine (malformed_answer_waits_11 Sample.cfg0 Sample.w_jobs_not_list
            Sample.d0 Sample.mem0 (Sample.ok_response (JObj [("jobs", JNum 3)]))
            MsgJobsNotList [Sample.d1] eq_refl eq_refl eq_refl _).
  apply jobs_not_list with (fields := [("jobs", JNum 3)]) (v := JNum 3);
    [reflexivity | reflexivity | discriminate].
Defined.

(** Read over every decoded body, the validation does not hold: a body that
    decodes to [null] has no [jobs] field, yet the membership test on it
    raises and the work request returns 121. *)
Lemma null_body_waits_121 :
  result (ask_for_work Sample.cfg0 Sample.w_null_body Sample.d0 [Sample.d1])
    = Ok 121
  /\ ~ (forall (cfg : config) (w : world) (d : Device) (mem : mem_info)
          (resp : response) (body : json) (p : pool_t),
          mem_get_info w (device_id d) = inr mem ->
          session_get w (work_request cfg d mem) = inr resp ->
          status resp = 200 ->
          json_body resp = inr body ->
          has_field "jobs" body = false ->
          result (ask_for_work cfg w d p) = Ok 11).
Proof.
  split; [reflexivity|].
  intros H.
  specialize (H Sample.cfg0 Sample.w_null_body Sample.d0 Sample.mem0
                (Sample.ok_response JNull) JNull [Sample.d1]
                eq_refl eq_refl eq_refl eq_refl eq_refl).
  discriminate H.
Qed.

(** C4: the code misses a case of its own validation.  The bodies [{}] and
    [[]] have no [jobs] and are answered as the statement says: the line
    about the missing field is printed and the wait is 11.  The body [null]
    has no [jobs] either, but there the membership test itself raises a
    [TypeError]; the catch-all clause of [ask_for_work] prints it as an
    unknown error and the wait is 121. *)
Theorem null_body_escapes_validation :
  ask_for_work Sample.cfg0 Sample.w_empty_object Sample.d0 [Sample.d1]
    = (Ok 11, [Sample.d1],
       [ Print (MsgAsking 0 (hive_uri Sample.cfg0));
         MemGetInfo 0;
         HttpGet (work_request Sample.cfg0 Sample.d0 Sample.mem0);
         Print MsgJobsMissing ])
  /\ ask_for_work Sample.cfg0 Sample.w_empty_array Sample.d0 [Sample.d1]
     = (Ok 11, [Sample.d1],
        [ Print (MsgAsking 0 (hive_uri Sample.cfg0));
          MemGetInfo 0;
          HttpGet (work_request Sample.cfg0 Sample.d0 Sample.mem0);
          Print MsgJobsMissing ])
  /\ has_field "jobs" JNull = false
  /\ exists e,
       exn_cls e = TypeError
       /\ ask_for_work Sample.cfg0 Sample.w_null_body Sample.d0 [Sample.d1]
          = (Ok 121, [Sample.d1],
             [ Print (MsgAsking 0 (hive_uri Sample.cfg0));
               MemGetInfo 0;
               HttpGet (work_request Sample.cfg0 Sample.d0 Sample.mem0);
               Print (MsgUnknownError e) ]).
Proof.
  split; [reflexivity|]; split; [reflexivity|]; split; [reflexivity|].
  eexists; split; [|reflexivity]; reflexivity.
Qed.

(** ** Answers with status 400 *)






(** ** The parameters of the work request *)

(** C7, as the code has it: the one request a work request sends carries
    the worker version, the configured worker name followed by a colon and
    the ordinal of the leased device, and as [vram] item 1 of the memory
    query, which is the total memory of the device; the query is made in the
    same call, right before the request, so each iteration sends what the
    device answers in that iteration. *)
Theorem work_request_parameters (cfg : config) (w : world) (wait : Z)
    (d : Device) (mem : mem_info) (p rest : pool_t) :
  take_nth (Nat.modulo (pool_choice w) (List.length p)) p = Some (d, rest) ->
  mem_get_info w (device_id d) = inr mem ->
  requests (trace (poll_iteration cfg w wait p)) = [work_request cfg d mem]
  /\ rq_params (work_request cfg d mem)
     = [ ("worker_version", PStr (version__ cfg));
         ("worker_name",
           PStr (worker_name (settings cfg) ++ ":" ++ str_of_nat (device_id d))%string);
         ("vram", PInt (total_bytes mem)) ]
  /\ exists t,
       trace (ask_for_work cfg w d rest)
         = Print (MsgAsking (device_id d) (hive_uri cfg))
             :: MemGetInfo (device_id d)
             :: HttpGet (work_request cfg d mem) :: t
       /\ requests t = [].
Proof.
  intros Hd Hmem.
  destruct (ask_for_work_run cfg w d rest)
    as [(e & He & _) | (mem' & z & t & Hm & E & _ & _ & _ & _ & Qq)];
    [congruence|].
  assert (mem' = mem) as -> by congruence.
  split; [|split; [reflexivity | exists t; rewrite E; auto]].
  destruct (poll_iteration_run cfg w wait p d rest Hd)
    as (z' & u & -> & _ & _ & _ & Hok & _).
  destruct (Hok z) as [_ ->]; [rewrite E; reflexivity|].
  rewrite E; unfold trace; simpl.
  rewrite !requests_app, Qq; reflexivity.
Qed.

Lemma work_request_parameters_witness :
  requests (trace (poll_iteration Sample.cfg0 Sample.w_no_work 11
                     [Sample.d0; Sample.d1]))
    = [work_request Sample.cfg0 Sample.d0 Sample.mem0]
  /\ rq_params (work_request Sample.cfg0 Sample.d0 Sample.mem0)
     = [ ("worker_version", PStr "0.27.0");
         ("worker_name", PStr "rig:0");
         ("vram", PInt 8000) ]
  /\ exists t,
       trace (ask_for_work Sample.cfg0 Sample.w_no_work Sample.d0 [Sample.d1])
         = Print (MsgAsking 0 (hive_uri Sample.cfg0))
             :: MemGetInfo 0
             :: HttpGet (work_request Sample.cfg0 Sample.d0 Sample.mem0) :: t
       /\ requests t = [].
Proof.
  exact (work_request_parameters Sample.cfg0 Sample.w_no_work 11 Sample.d0
           Sample.mem0 [Sample.d0; Sample.d1] [Sample.d1] eq_refl eq_refl).
Defined.

(** C7, as stated, fails: on a device with 1000 bytes free out of 8000 the
    request carries [vram = 8000], not the free memory. *)
Lemma vram_is_not_free_memory :
  requests (trace (ask_for_work Sample.cfg0 Sample.w_no_work Sample.d0
                     [Sample.d1]))
    = [work_request Sample.cfg0 Sample.d0 Sample.mem0]
  /\ param_get "vram" (rq_params (work_request Sample.cfg0 Sample.d0 Sample.mem0))
     = Some (PInt 8000)
  /\ free_bytes Sample.mem0 = 1000
  /\ ~ (forall (cfg : config) (w : world) (d : Device) (mem : mem_info)
          (p : pool_t) (rq : request),
          mem_get_info w (device_id d) = inr mem ->
          In rq (requests (trace (ask_for_work cfg w d p))) ->
          param_get "vram" (rq_params rq) = Some (PInt (free_bytes mem))).
Proof.
  repeat (split; [reflexivity|]).
  intros H.
  specialize (H Sample.cfg0 Sample.w_no_work Sample.d0 Sample.mem0
                [Sample.d1] (work_request Sample.cfg0 Sample.d0 Sample.mem0)
                eq_refl (or_introl eq_refl)).
  discriminate H.
Qed.

(** ** Failures of the exchange *)

Lemma take_nth_nonempty (k : nat) (p : pool_t) (d : Device) (rest : pool_t) :
  take_nth k p = Some (d, rest) -> p <> [].
Proof. intros H ->; discriminate H. Qed.

(** An exchange that fails with exception [e] makes the work request print
    the line of the first matching clause and return 121. *)
Lemma ask_for_work_failed_exchange (cfg : config) (w : world) (d : Device)
    (mem : mem_info) (e : exn) (p : pool_t) :
  mem_get_info w (device_id d) = inr mem ->
  session_get w (work_request cfg d mem) = inl e ->
  ask_for_work cfg w d p
    = (Ok 121, p,
       [ Print (MsgAsking (device_id d) (hive_uri cfg));
         MemGetInfo (device_id d);
         HttpGet (work_request cfg d mem);
         Print (failure_message e) ]).
Proof.
  intros Hmem Hget.
  unfold ask_for_work, request_exchange, bind, print, emit, await, try_except.
  simpl; rewrite Hmem; simpl; rewrite Hget; simpl.
  unfold failure_message; rewrite isinstance_Exception.
  destruct (isinstance e ClientConnectorError); [reflexivity|].
  destruct (isinstance e ClientError); [reflexivity|].
  destruct (isinstance e TimeoutError); reflexivity.
Qed.

(** C5: when the exchange fails, be it a connection failure, another client
    error, a timeout or anything else, the work request prints the failure
    and returns 121 without raising; when an exception escapes the work
    request all the same, the loop prints it and takes 121 as the next wait;
    and the loop goes on: any number of iterations completes. *)
Theorem poll_failures_back_off (cfg : config) (worlds : nat -> world)
    (n k : nat) (wait : Z) (d : Device) (p rest : pool_t) :
  take_nth (Nat.modulo (pool_choice (worlds k)) (List.length p)) p
    = Some (d, rest) ->
  (forall mem e,
     mem_get_info (worlds k) (device_id d) = inr mem ->
     session_get (worlds k) (work_request cfg d mem) = inl e ->
     ask_for_work cfg (worlds k) d rest
       = (Ok 121, rest,
          [ Print (MsgAsking (device_id d) (hive_uri cfg));
            MemGetInfo (device_id d);
            HttpGet (work_request cfg d mem);
            Print (failure_message e) ])
     /\ result (poll_iteration cfg (worlds k) wait p) = Ok 121)
  /\ (forall mem,
        mem_get_info (worlds k) (device_id d) = inr mem ->
        exists z, result (ask_for_work cfg (worlds k) d rest) = Ok z)
  /\ (forall e,
        result (ask_for_work cfg (worlds k) d rest) = Raise e ->
        result (poll_iteration cfg (worlds k) wait p) = Ok 121
        /\ In (MsgException e)
             (printed (trace (poll_iteration cfg (worlds k) wait p))))
  /\ exists z, result (poll_loop cfg worlds n k wait p) = Ok z.
Proof.
  intros Hd.
  destruct (poll_iteration_run cfg (worlds k) wait p d rest Hd)
    as (z & u & E & _ & _ & _ & Hok & Hraise).
  split; [|split; [|split]].
  - intros mem e Hmem Hget.
    pose proof (ask_for_work_failed_exchange cfg (worlds k) d mem e rest
                  Hmem Hget) as A.
    split; [exact A|].
    destruct (Hok 121) as [-> _]; [rewrite A; reflexivity|].
    rewrite E; reflexivity.
  - intros mem Hmem.
    destruct (ask_for_work_run cfg (worlds k) d rest)
      as [(e & He & _) | (mem' & y & t & _ & -> & _)]; [congruence|].
    exists y; reflexivity.
  - intros e He; destruct (Hraise e He) as [-> ->].
    rewrite E; split; [reflexivity|].
    unfold trace; simpl; rewrite !printed_app, !in_app_iff; simpl; tauto.
  - destruct (poll_loop_ok cfg worlds n k wait p
                (take_nth_nonempty _ p d rest Hd)) as (z' & p' & t & -> & _).
    exists z'; reflexivity.
Qed.

Lemma poll_failures_back_off_witness :
  (ask_for_work Sample.cfg0 Sample.w_unreachable Sample.d0 [Sample.d1]
     = (Ok 121, [Sample.d1],
        [ Print (MsgAsking 0 (hive_uri Sample.cfg0));
          MemGetInfo 0;
          HttpGet (work_request Sample.cfg0 Sample.d0 Sample.mem0);
          Print (MsgConnectError
                   (mk_exn ClientConnectorError "connection refused")) ])
   /\ result (poll_iteration Sample.cfg0 Sample.w_unreachable 0
                [Sample.d0; Sample.d1]) = Ok 121)
  /\ (result (poll_iteration Sample.cfg0 Sample.w_device_lost 0
                [Sample.d0; Sample.d1]) = Ok 121
      /\ In (MsgException Sample.boom)
           (printed (trace (poll_iteration Sample.cfg0 Sample.w_device_lost 0
                              [Sample.d0; Sample.d1]))))
  /\ exists z,
       result (poll_loop Sample.cfg0 (fun _ => Sample.w_device_lost) 3 0 0
                 [Sample.d0; Sample.d1]) = Ok z.
Proof.
  split; [|split].
  - exact (proj1 (poll_failures_back_off Sample.cfg0
                    (fun _ => Sample.w_unreachable) 1 0 0 Sample.d0
                    [Sample.d0; Sample.d1] [Sample.d1] eq_refl)
             Sample.mem0 (mk_exn ClientConnectorError "connection refused")
             eq_refl eq_refl).
  - exact (proj1 (proj2 (proj2 (poll_failures_back_off Sample.cfg0
                           (fun _ => Sample.w_device_lost) 1 0 0 Sample.d1
                           [Sample.d0; Sample.d1] [Sample.d0] eq_refl)))
             Sample.boom eq_refl).
  - exact (proj2 (proj2 (proj2 (poll_failures_back_off Sample.cfg0
                           (fun _ => Sample.w_device_lost) 3 0 0 Sample.d1
                           [Sample.d0; Sample.d1] [Sample.d0] eq_refl)))).
Defined.

(** ** Failures of a job *)

(** C6: a job whose computation raises, or whose result cannot be sent, or
    whose submission is answered with status 500, is handled inside its own
    dispatch: the dispatch prints the failure and returns; so every job of
    the list is dispatched, in order, and the work request still returns 0
    for a list that has a job. *)
Theorem job_failures_are_contained (cfg : config) (w : world) (d : Device)
    (mem : mem_info) (resp : response) (fields : list (string * json))
    (first : json) (others : list json) (p : pool_t) :
  mem_get_info w (device_id d) = inr mem ->
  session_get w (work_request cfg d mem) = inr resp ->
  status resp = 200 ->
  json_body resp = inr (JObj fields) ->
  dict_get "jobs" fields = Some (JArr (first :: others)) ->
  (forall i job q,
     result (spawn_task cfg w i job d q) = Ok tt
     /\ pool_after (spawn_task cfg w i job d q) = q)
  /\ (forall i job q e,
        do_work w i job d = inl e ->
        printed (trace (spawn_task cfg w i job d q))
          = [MsgGotWork (device_id d); MsgJobError e])
  /\ (forall i job q r e,
        do_work w i job d = inr (PyJson r) ->
        session_post w i (results_request cfg) r = inl e ->
        printed (trace (spawn_task cfg w i job d q))
          = [MsgGotWork (device_id d); MsgJobError e])
  /\ (forall i job q r answer,
        do_work w i job d = inr (PyJson r) ->
        session_post w i (results_request cfg) r = inr answer ->
        status answer = 500 ->
        printed (trace (spawn_task cfg w i job d q))
          = [MsgGotWork (device_id d); MsgHiveError (text answer)])
  /\ (forall i job q r answer e,
        do_work w i job d = inr (PyJson r) ->
        session_post w i (results_request cfg) r = inr answer ->
        status answer <> 500 ->
        json_body answer = inl e ->
        printed (trace (spawn_task cfg w i job d q))
          = [MsgGotWork (device_id d); MsgJobError e])
  /\ (forall i job q,
        do_work w i job d = inr PyOpaque ->
        exists e,
          printed (trace (spawn_task cfg w i job d q))
            = [MsgGotWork (device_id d); MsgJobError e])
  /\ spawned (trace (ask_for_work cfg w d p))
     = map (fun job => (job, d)) (first :: others)
  /\ result (ask_for_work cfg w d p) = Ok 0.
Proof.
  intros Hmem Hget Hst Hb Hj.
  split; [|split; [|split; [|split; [|split; [|split]]]]].
  - intros i job q.
    destruct (spawn_task_run cfg w i job d q) as (t & -> & _); auto.
  - intros i job q e He.
    unfold spawn_task, bind, try_except, emit, print, await; simpl.
    rewrite He; simpl; rewrite isinstance_Exception; reflexivity.
  - intros i job q r e Hr He.
    unfold spawn_task, bind, try_except, emit, print, await; simpl.
    rewrite Hr; simpl; rewrite He; simpl.
    rewrite isinstance_Exception; reflexivity.
  - intros i job q r answer Hr Ha H500.
    unfold spawn_task, bind, try_except, emit, print, await; simpl.
    rewrite Hr; simpl; rewrite Ha; simpl; rewrite H500; reflexivity.
  - intros i job q r answer e Hr Ha H500 He.
    unfold spawn_task, bind, try_except, emit, print, await; simpl.
    rewrite Hr; simpl; rewrite Ha; simpl.
    destruct (Z.eqb_spec (status answer) 500) as [|_]; [contradiction|].
    rewrite He; simpl; rewrite isinstance_Exception; reflexivity.
  - intros i job q Hr; eexists.
    unfold spawn_task, bind, try_except, emit, print, await; simpl.
    rewrite Hr; reflexivity.
  - exact (ask_for_work_jobs cfg w d mem resp fields (first :: others) p
             Hmem Hget Hst Hb Hj).
Qed.

Lemma job_failures_are_contained_witness :
  (forall i job q,
     result (spawn_task Sample.cfg0 Sample.w_two_jobs i job Sample.d0 q) = Ok tt
     /\ pool_after (spawn_task Sample.cfg0 Sample.w_two_jobs i job Sample.d0 q)
        = q)
  /\ printed (trace (spawn_task Sample.cfg0 Sample.w_two_jobs 0 Sample.job1
                       Sample.d0 [Sample.d1]))
     = [MsgGotWork 0; MsgJobError Sample.boom]
  /\ printed (trace (spawn_task Sample.cfg0 Sample.w_two_jobs 1 Sample.job2
                       Sample.d0 [Sample.d1]))
     = [MsgGotWork 0; MsgHiveError "hive is down"]
  /\ spawned (trace (ask_for_work Sample.cfg0 Sample.w_two_jobs Sample.d0
                       [Sample.d1]))
     = [(Sample.job1, Sample.d0); (Sample.job2, Sample.d0)]
  /\ result (ask_for_work Sample.cfg0 Sample.w_two_jobs Sample.d0 [Sample.d1])
     = Ok 0.
Proof.
  pose proof (job_failures_are_contained Sample.cfg0 Sample.w_two_jobs
                Sample.d0 Sample.mem0
                (Sample.ok_response
                   (JObj [("jobs", JArr [Sample.job1; Sample.job2])]))
                [("jobs", JArr [Sample.job1; Sample.job2])]
                Sample.job1 [Sample.job2] [Sample.d1]
                eq_refl eq_refl eq_refl eq_refl eq_refl)
    as (H1 & H2 & _ & H4 & _ & _ & H5).
  split; [exact H1|]; split.
  - exact (H2 0%nat Sample.job1 [Sample.d1] Sample.boom eq_refl).
  - split; [|exact H5].
    exact (H4 1%nat Sample.job2 [Sample.d1] (JStr "image")
             {| status := 500; reason := "Internal Server Error";
                text := "hive is down";
                json_body := inl (mk_exn JSONDecodeError "") |}
             eq_refl eq_refl eq_refl).
Defined.

(** ** The waits *)

Lemma poll_iteration_blocks (cfg : config) (w : world) (wait : Z) :
  poll_iteration cfg w wait [] = (Block, [], [Sleep wait]).
Proof. reflexivity. Qed.

(** The previous wait is slept and otherwise ignored. *)
Lemma poll_iteration_wait (cfg : config) (w : world) (wait wait' : Z)
    (p : pool_t) :
  result (poll_iteration cfg w wait p) = result (poll_iteration cfg w wait' p)
  /\ pool_after (poll_iteration cfg w wait p)
     = pool_after (poll_iteration cfg w wait' p)
  /\ trace (poll_iteration cfg w wait p)
     = Sleep wait :: tl (trace (poll_iteration cfg w wait' p)).
Proof.
  destruct p as [|x p]; [repeat split; reflexivity|].
  destruct (remove_device_some (pool_choice w) (x :: p)) as (d & rest & Hd);
    [discriminate|].
  destruct (poll_iteration_run cfg w wait (x :: p) d rest Hd)
    as (z & u & -> & _ & _ & _ & Hok & Hraise).
  destruct (poll_iteration_run cfg w wait' (x :: p) d rest Hd)
    as (z' & u' & -> & _ & _ & _ & Hok' & Hraise').
  destruct (ask_for_work_run cfg w d rest)
    as [(e & _ & E) | (mem & y & t & _ & E & _)].
  - destruct (Hraise e) as [-> ->]; [rewrite E; reflexivity|].
    destruct (Hraise' e) as [-> ->]; [rewrite E; reflexivity|].
    repeat split; reflexivity.
  - destruct (Hok y) as [-> ->]; [rewrite E; reflexivity|].
    destruct (Hok' y) as [-> ->]; [rewrite E; reflexivity|].
    repeat split; reflexivity.
Qed.

(** An iteration in which the hive has no work ends with the wait 11. *)
Lemma poll_iteration_no_work (cfg : config) (w : world) (wait : Z)
    (p : pool_t) :
  p <> [] ->
  no_work_available cfg w ->
  exists p' t,
    poll_iteration cfg w wait p = (Ok 11, p', t) /\ Permutation p' p.
Proof.
  intros Hp Hw.
  destruct (remove_device_some (pool_choice w) p Hp) as (d & rest & Hd).
  destruct (Hw d) as (mem & resp & fields & Hmem & Hget & Hst & Hb & Hj).
  destruct (ask_for_work_jobs cfg w d mem resp fields [] rest
              Hmem Hget Hst Hb Hj) as [_ R].
  destruct (poll_iteration_run cfg w wait p d rest Hd)
    as (z & u & -> & _ & _ & _ & Hok & _).
  destruct (Hok 11 R) as [-> ->].
  eexists _, _; split; [reflexivity|].
  apply pool_after_release_perm, take_nth_perm with (1 := Hd).
Qed.

Lemma poll_loop_no_work (cfg : config) (worlds : nat -> world) (n : nat) :
  forall (k : nat) (wait : Z) (p : pool_t),
    p <> [] ->
    (forall i, (k <= i <= k + n)%nat -> no_work_available cfg (worlds i)) ->
    result (poll_loop cfg worlds (S n) k wait p) = Ok 11.
Proof.
  induction n as [|n IH]; intros k wait p Hp Hw.
  - simpl; unfold bind.
    destruct (poll_iteration_no_work cfg (worlds k) wait p Hp)
      as (p' & t & -> & _); [apply Hw; lia | reflexivity].
  - change (poll_loop cfg worlds (S (S n)) k wait p)
      with (bind (poll_iteration cfg (worlds k) wait)
              (fun next => poll_loop cfg worlds (S n) (S k) next) p).
    unfold bind.
    destruct (poll_iteration_no_work cfg (worlds k) wait p Hp)
      as (p' & t & -> & Hperm); [apply Hw; lia|].
    specialize (IH (S k) 11 p' (perm_nonempty p' p Hperm Hp)).
    destruct (poll_loop cfg worlds (S n) (S k) 11 p') as [[r p2] t2].
    unfold result in *; simpl in *; apply IH.
    intros i Hi; apply Hw; lia.
Qed.

(** C9: the wait an iteration ends with does not depend on the wait it
    started with, which is only slept: started with another wait, the
    iteration has the same result, leaves the same pool and does the same
    things after the sleep.  In particular, as long as the hive answers that
    there is no work, the wait is 11 after every iteration.  The loop passes
    nothing else than the wait from one iteration to the next. *)
Theorem wait_depends_on_outcome_only (cfg : config) (worlds : nat -> world)
    (n k : nat) (wait wait' : Z) (p : pool_t) :
  p <> [] ->
  (forall i, (k <= i <= k + n)%nat -> no_work_available cfg (worlds i)) ->
  (forall (w : world) (q : pool_t),
     result (poll_iteration cfg w wait q)
       = result (poll_iteration cfg w wait' q)
     /\ pool_after (poll_iteration cfg w wait q)
        = pool_after (poll_iteration cfg w wait' q)
     /\ trace (poll_iteration cfg w wait q)
        = Sleep wait :: tl (trace (poll_iteration cfg w wait' q)))
  /\ (forall (w : world) (q : pool_t) (d : Device) (rest : pool_t),
        take_nth (Nat.modulo (pool_choice w) (List.length q)) q
          = Some (d, rest) ->
        result (poll_iteration cfg w wait q)
          = Ok (match result (ask_for_work cfg w d rest) with
                | Ok z => z
                | _ => 121
                end)
        /\ Permutation (pool_after (poll_iteration cfg w wait q)) q)
  /\ result (poll_loop cfg worlds (S n) k wait p) = Ok 11
  /\ result (poll_loop cfg worlds (S n) k wait' p) = Ok 11.
Proof.
  intros Hp Hw; split; [|split; [|split]].
  - intros w q; apply poll_iteration_wait.
  - intros w q d rest Hd.
    destruct (poll_iteration_run cfg w wait q d rest Hd)
      as (z & u & -> & _ & _ & _ & Hok & Hraise).
    split.
    + destruct (ask_for_work_run cfg w d rest)
        as [(e & _ & E) | (mem & y & t & _ & E & _)]; rewrite E.
      * destruct (Hraise e) as [-> _]; [rewrite E|]; reflexivity.
      * destruct (Hok y) as [-> _]; [rewrite E|]; reflexivity.
    + apply pool_after_release_perm, take_nth_perm with (1 := Hd).
  - apply poll_loop_no_work; assumption.
  - apply poll_loop_no_work; assumption.
Qed.

(** C10: a wait returned by the work request is 0, 11 or 121, and so is the
    wait at the end of every iteration that completes, whether the work
    request returned or raised; on a pool that is not empty every iteration
    completes. *)
Theorem waits_are_tiers (cfg : config) (worlds : nat -> world) (n k : nat)
    (wait : Z) (d : Device) (p : pool_t) :
  (forall z, result (ask_for_work cfg (worlds k) d p) = Ok z -> wait_tier z)
  /\ (forall z,
        result (poll_iteration cfg (worlds k) wait p) = Ok z -> wait_tier z)
  /\ (p <> [] ->
      exists z,
        result (poll_iteration cfg (worlds k) wait p) = Ok z /\ wait_tier z)
  /\ (p <> [] ->
      exists z,
        result (poll_loop cfg worlds (S n) k wait p) = Ok z /\ wait_tier z)
  /\ (p <> [] ->
      exists z, result (poll_loop cfg worlds n k 0 p) = Ok z /\ wait_tier z).
Proof.
  assert (I : forall q, q <> [] ->
                exists z,
                  result (poll_iteration cfg (worlds k) wait q) = Ok z
                  /\ wait_tier z).
  { intros q Hq.
    destruct (poll_iteration_ok cfg (worlds k) wait q Hq)
      as (z & p' & t & _ & -> & Hz & _).
    exists z; auto. }
  split; [|split; [|split; [|split]]].
  - intros z.
    destruct (ask_for_work_run cfg (worlds k) d p)
      as [(e & _ & ->) | (mem & y & t & _ & -> & _ & Hy & _)].
    + intros H; discriminate H.
    + intros [= <-]; exact Hy.
  - intros z; destruct p as [|x p].
    + rewrite poll_iteration_blocks; intros H; discriminate H.
    + destruct (I (x :: p)) as (y & -> & Hy); [discriminate|].
      intros [= <-]; exact Hy.
  - apply I.
  - intros Hp.
    destruct (poll_loop_ok cfg worlds (S n) k wait p Hp)
      as (z & p' & t & -> & _ & _ & Hz).
    exists z; split; [reflexivity | apply Hz; discriminate].
  - intros Hp.
    destruct (poll_loop_ok cfg worlds n k 0 p Hp)
      as (z & p' & t & -> & _ & Hz & _).
    exists z; split; [reflexivity | apply Hz; left; reflexivity].
Qed.

Lemma wait_depends_on_outcome_only_witness :
  (forall (w : world) (q : pool_t),
     result (poll_iteration Sample.cfg0 w 0 q)
       = result (poll_iteration Sample.cfg0 w 121 q)
     /\ pool_after (poll_iteration Sample.cfg0 w 0 q)
        = pool_after (poll_iteration Sample.cfg0 w 121 q)
     /\ trace (poll_iteration Sample.cfg0 w 0 q)
        = Sleep 0 :: tl (trace (poll_iteration Sample.cfg0 w 121 q)))
  /\ (forall (w : world) (q : pool_t) (d : Device) (rest : pool_t),
        take_nth (Nat.modulo (pool_choice w) (List.length q)) q
          = Some (d, rest) ->
        result (poll_iteration Sample.cfg0 w 0 q)
          = Ok (match result (ask_for_work Sample.cfg0 w d rest) with
                | Ok z => z
                | _ => 121
                end)
        /\ Permutation (pool_after (poll_iteration Sample.cfg0 w 0 q)) q)
  /\ result (poll_loop Sample.cfg0 (fun _ => Sample.w_no_work) 4 0 0
               [Sample.d0; Sample.d1]) = Ok 11
  /\ result (poll_loop Sample.cfg0 (fun _ => Sample.w_no_work) 4 0 121
               [Sample.d0; Sample.d1]) = Ok 11.
Proof.
  apply (wait_depends_on_outcome_only Sample.cfg0 (fun _ => Sample.w_no_work)
           3 0 0 121 [Sample.d0; Sample.d1]).
  - discriminate.
  - intros i _ d.
    exists Sample.mem0, (Sample.ok_response (JObj [("jobs", JArr [])])),
      [("jobs", JArr [])].
    repeat split; reflexivity.
Defined.

Lemma waits_are_tiers_witness :
  (exists z,
     result (poll_iteration Sample.cfg0 Sample.w_device_lost 0
               [Sample.d0; Sample.d1]) = Ok z /\ wait_tier z)
  /\ (exists z,
        result (poll_loop Sample.cfg0 (fun _ => Sample.w_two_jobs) 3 0 0
                  [Sample.d0; Sample.d1]) = Ok z /\ wait_tier z).
Proof.
  assert (N : [Sample.d0; Sample.d1] <> []) by discriminate.
  split.
  - exact (proj1 (proj2 (proj2
             (waits_are_tiers Sample.cfg0 (fun _ => Sample.w_device_lost)
                0 0 0 Sample.d0 [Sample.d0; Sample.d1]))) N).
  - exact (proj1 (proj2 (proj2 (proj2
             (waits_are_tiers Sample.cfg0 (fun _ => Sample.w_two_jobs)
                2 0 0 Sample.d0 [Sample.d0; Sample.d1])))) N).
Defined.

(** ** Startup and the lease *)

Section RunFacts.

Variable Version : Type.
Variable version_parse : string -> option Version.
Variable version_lt : Version -> Version -> bool.
Variable cfg : config.
Variable rt : torch_runtime.

(** When [startup] raises, [run_worker] raises the same exception and its
    loop is never entered. *)
Lemma startup_fatal (e : exn) (p p' : pool_t) (t : list event) :
  startup version_parse version_lt cfg rt p = (Raise e, p', t) ->
  forall worlds n,
    run_worker version_parse version_lt cfg rt worlds n p = (Raise e, p', t).
Proof.
  intros E worlds n; unfold run_worker, bind; rewrite E; reflexivity.
Qed.

(** After a successful [startup] on the empty pool of a fresh process, the
    loop starts on the enumerated devices with the wait 0. *)
Lemma run_worker_run :
  result (startup version_parse version_lt cfg rt []) = Ok tt ->
  enumeration rt <> []
  /\ exists t0,
       forall worlds n,
         run_worker version_parse version_lt cfg rt worlds n []
           = (result (poll_loop cfg worlds n 0 0 (enumeration rt)),
              pool_after (poll_loop cfg worlds n 0 0 (enumeration rt)),
              t0 ++ LogInfo "worker"
                 :: trace (poll_loop cfg worlds n 0 0 (enumeration rt))).
Proof.
  intros H.
  destruct (startup_inv Version version_parse version_lt cfg rt [] H)
    as (Ha & found & minimum & Hf & Hm & Hlt).
  split; [apply available_devices, Ha|].
  destruct (startup_run Version version_parse version_lt cfg rt found minimum
              [] Ha Hf Hm Hlt) as (t0 & E & _).
  exists t0; intros worlds n.
  unfold run_worker, bind, emit; rewrite E; simpl.
  destruct (poll_loop cfg worlds n 0 0 (enumeration rt)) as [[r p'] t].
  reflexivity.
Qed.

End RunFacts.

(** C1: in every iteration of the loop of [run_worker], the device taken
    from the pool at the start is given back exactly once, as the last
    action of the iteration, whether the work request returned or raised;
    between the two, the device held and the devices left in the pool are
    together the devices enumerated at startup, and after the release the
    pool holds exactly those again. *)
Theorem lease_returned_once (Version : Type)
    (version_parse : string -> option Version)
    (version_lt : Version -> Version -> bool)
    (cfg : config) (rt : torch_runtime) (worlds : nat -> world) (n : nat) :
  result (startup version_parse version_lt cfg rt []) = Ok tt ->
  exists (wait : Z) (pool : pool_t) (d : Device) (rest : pool_t)
         (z : Z) (u : list event),
    result (run_worker version_parse version_lt cfg rt worlds n []) = Ok wait
    /\ pool_after (run_worker version_parse version_lt cfg rt worlds n [])
       = pool
    /\ Permutation pool (enumeration rt)
    /\ take_nth (Nat.modulo (pool_choice (worlds n)) (List.length pool)) pool
       = Some (d, rest)
    /\ poll_iteration cfg (worlds n) wait pool
       = (Ok z, rest ++ [d],
          Sleep wait :: PoolRemove d
            :: (trace (ask_for_work cfg (worlds n) d rest) ++ u)
            ++ [PoolAdd d])
    /\ acquired (trace (ask_for_work cfg (worlds n) d rest) ++ u) = []
    /\ released (trace (ask_for_work cfg (worlds n) d rest) ++ u) = []
    /\ (forall e,
          result (ask_for_work cfg (worlds n) d rest) = Raise e ->
          u = [Print (MsgException e)])
    /\ Permutation (d :: rest) (enumeration rt)
    /\ Permutation (rest ++ [d]) (enumeration rt).
Proof.
  intros H.
  destruct (run_worker_run Version version_parse version_lt cfg rt H)
    as (Hne & t0 & R).
  destruct (poll_loop_ok cfg worlds n 0 0 (enumeration rt) Hne)
    as (wait & pool & t & E & Hperm & _).
  assert (Hpool : pool <> []) by exact (perm_nonempty _ _ Hperm Hne).
  destruct (remove_device_some (pool_choice (worlds n)) pool Hpool)
    as (d & rest & Hd).
  destruct (poll_iteration_run cfg (worlds n) wait pool d rest Hd)
    as (z & u & I & Qa & Qr & _ & _ & Hraise).
  pose proof (take_nth_perm _ _ _ _ Hd) as Hheld.
  exists wait, pool, d, rest, z, u.
  rewrite R, E; unfold result, pool_after; simpl.
  repeat split; auto.
  - intros e He; apply (Hraise e He).
  - apply perm_trans with pool; [apply Permutation_sym, Hheld | exact Hperm].
  - apply perm_trans with pool; [|exact Hperm].
    apply pool_after_release_perm, Hheld.
Qed.

Lemma lease_returned_once_witness :
  exists (wait : Z) (pool : pool_t) (d : Device) (rest : pool_t)
         (z : Z) (u : list event),
    result (run_worker Sample.release_parse Sample.release_lt Sample.cfg0
              Sample.rt0 (fun _ => Sample.w_device_lost) 3 []) = Ok wait
    /\ pool_after (run_worker Sample.release_parse Sample.release_lt
                     Sample.cfg0 Sample.rt0 (fun _ => Sample.w_device_lost)
                     3 []) = pool
    /\ Permutation pool (enumeration Sample.rt0)
    /\ take_nth (Nat.modulo (pool_choice Sample.w_device_lost)
                   (List.length pool)) pool = Some (d, rest)
    /\ poll_iteration Sample.cfg0 Sample.w_device_lost wait pool
       = (Ok z, rest ++ [d],
          Sleep wait :: PoolRemove d
            :: (trace (ask_for_work Sample.cfg0 Sample.w_device_lost d rest)
                  ++ u)
            ++ [PoolAdd d])
    /\ acquired (trace (ask_for_work Sample.cfg0 Sample.w_device_lost d rest)
                   ++ u) = []
    /\ released (trace (ask_for_work Sample.cfg0 Sample.w_device_lost d rest)
                   ++ u) = []
    /\ (forall e,
          result (ask_for_work Sample.cfg0 Sample.w_device_lost d rest)
            = Raise e ->
          u = [Print (MsgException e)])
    /\ Permutation (d :: rest) (enumeration Sample.rt0)
    /\ Permutation (rest ++ [d]) (enumeration Sample.rt0).
Proof.
  exact (lease_returned_once (list nat) Sample.release_parse Sample.release_lt
           Sample.cfg0 Sample.rt0 (fun _ => Sample.w_device_lost) 3 eq_refl).
Defined.

(** C8: [startup] raises, and [run_worker] with it before its loop, when
    CUDA support is absent, when no device is found, and when the version of
    the runtime is below 2.0.0; when none of these holds, it puts every
    enumerated device into the pool. *)
Theorem startup_preconditions (Version : Type)
    (version_parse : string -> option Version)
    (version_lt : Version -> Version -> bool)
    (cfg : config) (rt : torch_runtime) (p : pool_t) :
  (cuda_compiled rt = false ->
   exists e,
     startup version_parse version_lt cfg rt p = (Raise e, p, [])
     /\ forall worlds n,
          run_worker version_parse version_lt cfg rt worlds n p
            = (Raise e, p, []))
  /\ (cuda_device_count rt = 0%nat ->
      exists e,
        startup version_parse version_lt cfg rt p = (Raise e, p, [])
        /\ forall worlds n,
             run_worker version_parse version_lt cfg rt worlds n p
               = (Raise e, p, []))
  /\ (forall found minimum,
        version_parse (torch_version rt) = Some found ->
        version_parse "2.0.0" = Some minimum ->
        version_lt found minimum = true ->
        exists e,
          startup version_parse version_lt cfg rt p = (Raise e, p, [])
          /\ forall worlds n,
               run_worker version_parse version_lt cfg rt worlds n p
                 = (Raise e, p, []))
  /\ (forall found minimum,
        cuda_compiled rt = true ->
        cuda_device_count rt <> 0%nat ->
        version_parse (torch_version rt) = Some found ->
        version_parse "2.0.0" = Some minimum ->
        version_lt found minimum = false ->
        exists t,
          startup version_parse version_lt cfg rt p
            = (Ok tt, p ++ enumeration rt, t)
          /\ released t = enumeration rt
          /\ acquired t = []).
Proof.
  assert (F : forall e,
            startup version_parse version_lt cfg rt p = (Raise e, p, []) ->
            exists e',
              startup version_parse version_lt cfg rt p = (Raise e', p, [])
              /\ forall worlds n,
                   run_worker version_parse version_lt cfg rt worlds n p
                     = (Raise e', p, [])).
  { intros e E; exists e; split; [exact E|].
    apply startup_fatal, E. }
  split; [|split; [|split]].
  - intros Hc; eapply F.
    unfold startup, cuda_is_available; rewrite Hc; reflexivity.
  - intros H0; eapply F.
    unfold startup, cuda_is_available; rewrite H0, andb_false_r; reflexivity.
  - intros found minimum Hf Hm Hlt.
    destruct (cuda_is_available rt) eqn:Ha.
    + eapply F; unfold startup, parse, bind.
      rewrite Ha, Hf, Hm; simpl; rewrite Hlt; reflexivity.
    + eapply F; unfold startup; rewrite Ha; reflexivity.
  - intros found minimum Hc Hn Hf Hm Hlt.
    apply (startup_run Version version_parse version_lt cfg rt found minimum p);
      try assumption.
    unfold cuda_is_available; rewrite Hc; simpl.
    destruct (Nat.eqb_spec (cuda_device_count rt) 0); [contradiction|].
    reflexivity.
Qed.

Lemma startup_preconditions_witness :
  (exists e,
     startup Sample.release_parse Sample.release_lt Sample.cfg0
       Sample.rt_no_device [] = (Raise e, [], [])
     /\ forall worlds n,
          run_worker Sample.release_parse Sample.release_lt Sample.cfg0
            Sample.rt_no_device worlds n [] = (Raise e, [], []))
  /\ (exists e,
        startup Sample.release_parse Sample.release_lt Sample.cfg0
          Sample.rt_old [] = (Raise e, [], [])
        /\ forall worlds n,
             run_worker Sample.release_parse Sample.release_lt Sample.cfg0
               Sample.rt_old worlds n [] = (Raise e, [], []))
  /\ (exists t,
        startup Sample.release_parse Sample.release_lt Sample.cfg0
          Sample.rt0 [] = (Ok tt, [] ++ enumeration Sample.rt0, t)
        /\ released t = enumeration Sample.rt0
        /\ acquired t = []).
Proof.
  split; [|split].
  - exact (proj1 (proj2
             (startup_preconditions (list nat) Sample.release_parse
                Sample.release_lt Sample.cfg0 Sample.rt_no_device []))
             eq_refl).
  - exact (proj1 (proj2 (proj2
             (startup_preconditions (list nat) Sample.release_parse
                Sample.release_lt Sample.cfg0 Sample.rt_old [])))
             [1; 13; 1]%nat [2; 0; 0]%nat eq_refl eq_refl eq_refl).
  - refine (proj2 (proj2 (proj2
              (startup_preconditions (list nat) Sample.release_parse
                 Sample.release_lt Sample.cfg0 Sample.rt0 [])))
              [2; 1; 0]%nat [2; 0; 0]%nat eq_refl _ eq_refl eq_refl eq_refl).
    discriminate.
Defined.

(** * Further properties of the worker *)

(** ** More about traces *)

Lemma posted_app (t u : list event) : posted (t ++ u) = posted t ++ posted u.
Proof.
  induction t as [|ev t IH]; simpl; [reflexivity|].
  destruct ev; simpl; rewrite ?IH; reflexivity.
Qed.

Lemma computed_app (t u : list event) :
  computed (t ++ u) = computed t ++ computed u.
Proof.
  induction t as [|ev t IH]; simpl; [reflexivity|].
  destruct ev; simpl; rewrite ?IH; reflexivity.
Qed.

Lemma sleeps_app (t u : list event) : sleeps (t ++ u) = sleeps t ++ sleeps u.
Proof.
  induction t as [|ev t IH]; simpl; [reflexivity|].
  destruct ev; simpl; rewrite ?IH; reflexivity.
Qed.

(** ** What a computation can emit *)

Section Only.

Variable K : event -> bool.

Lemma only_ret {A} (a : A) : only K (ret a).
Proof. intros p; constructor. Qed.

Lemma only_raise {A} (e : exn) : only K (@raise A e).
Proof. intros p; constructor. Qed.

Lemma only_await {A} (r : exn + A) : only K (await r).
Proof. destruct r; [apply only_raise | apply only_ret]. Qed.

Lemma only_emit (ev : event) : K ev = true -> only K (emit ev).
Proof. intros H p; repeat constructor; exact H. Qed.

Lemma only_bind {A B} (m : M A) (f : A -> M B) :
  only K m -> (forall a, only K (f a)) -> only K (bind m f).
Proof.
  intros Hm Hf p; unfold bind; specialize (Hm p).
  destruct (m p) as [[[a|e|] p1] t1]; try exact Hm.
  specialize (Hf a p1); destruct (f a p1) as [[r p2] t2].
  apply Forall_app; split; assumption.
Qed.

Lemma only_try_except {A} (body : M A)
    (hs : list (exn_class * (exn -> M A))) :
  only K body ->
  (forall e h, select_handler hs e = Some h -> only K h) ->
  only K (try_except body hs).
Proof.
  intros Hb Hh p; unfold try_except; specialize (Hb p).
  destruct (body p) as [[[a|e|] p1] t1]; try exact Hb.
  destruct (select_handler hs e) as [h|] eqn:E; [|exact Hb].
  specialize (Hh e h E p1); destruct (h p1) as [[r p2] t2].
  apply Forall_app; split; assumption.
Qed.

(** A list of clauses all of whose handlers emit only [K]. *)
Lemma only_handlers {A} (hs : list (exn_class * (exn -> M A))) :
  Forall (fun kh => forall e, only K (snd kh e)) hs ->
  forall e h, select_handler hs e = Some h -> only K h.
Proof.
  induction 1 as [|[k h0] hs H0 _ IH]; intros e h; simpl.
  - intros [=].
  - destruct (isinstance e k); [intros [= <-]; apply H0 | apply IH].
Qed.

End Only.

(** One step of a proof that a computation emits only events of a kind. *)
Ltac only_step :=
  match goal with
  | |- only _ (ret _) => apply only_ret
  | |- only _ (raise _) => apply only_raise
  | |- only _ (await _) => apply only_await
  | |- only _ (print _) => apply only_emit; reflexivity
  | |- only _ (emit _) => apply only_emit; simpl; try reflexivity
  | |- only _ (bind _ _) => apply only_bind; [| intros ?]
  | |- only _ (try_except _ _) =>
      apply only_try_except;
      [| apply only_handlers; repeat constructor; intros ?; simpl]
  | |- only _ (if ?b then _ else _) => destruct b
  | |- only _ (match ?x with _ => _ end) => destruct x
  end.

Section LeaseFacts.

Variable cfg : config.
Variable w : world.
Variable d : Device.

Lemma spawn_task_within (i : nat) (job : json) :
  only (within_lease d) (spawn_task cfg w i job d).
Proof.
  unfold spawn_task, json_dumps; repeat only_step; apply Nat.eqb_refl.
Qed.

Lemma for_jobs_within (jobs : list json) :
  forall (i : nat) (b : bool), only (within_lease d) (for_jobs cfg w i jobs d b).
Proof.
  induction jobs as [|job rest IH]; intros i b; simpl.
  - apply only_ret.
  - apply only_bind; [apply spawn_task_within | intros _; apply IH].
Qed.

Lemma handle_status_200_within (resp : response) :
  only (within_lease d) (handle_status_200 cfg w resp d).
Proof.
  unfold handle_status_200, py_in, py_getitem.
  apply only_bind; [repeat only_step | intros [z|body]]; [apply only_ret|].
  apply only_bind; [repeat only_step | intros present].
  destruct (negb present); [repeat only_step|].
  apply only_bind; [repeat only_step | intros jobs].
  destruct jobs; try (repeat only_step; fail).
  apply only_bind; [apply for_jobs_within | intros did_work; apply only_ret].
Qed.

Lemma handle_status_400_within (resp : response) :
  only (within_lease d) (handle_status_400 cfg resp).
Proof.
  unfold handle_status_400, py_pop, raise_for_status; repeat only_step.
Qed.

(** A work request on [d] prints, queries, talks to the hive and runs jobs
    on [d]; it does not sleep, log, or touch the pool. *)
Lemma ask_for_work_within : only (within_lease d) (ask_for_work cfg w d).
Proof.
  unfold ask_for_work, request_exchange.
  apply only_bind; [repeat only_step | intros _].
  apply only_bind; [repeat only_step | intros _].
  apply only_bind; [repeat only_step | intros mem].
  apply only_try_except;
    [| apply only_handlers; repeat constructor; intros e; simpl;
       repeat only_step].
  apply only_bind; [repeat only_step | intros _].
  apply only_bind; [repeat only_step | intros resp].
  destruct (status resp =? 200); [apply handle_status_200_within|].
  destruct (status resp =? 400).
  - apply only_bind; [apply handle_status_400_within | intros _; apply only_ret].
  - unfold raise_for_status; repeat only_step.
Qed.

End LeaseFacts.

Lemma device_id_inj (a b : Device) : device_id a = device_id b -> a = b.
Proof. destruct a, b; simpl; intros ->; reflexivity. Qed.

(** What the events of a work request on [d] amount to. *)
Lemma within_lease_trace (d : Device) (t : list event) :
  Forall (fun ev => within_lease d ev = true) t ->
  sleeps t = [] /\ acquired t = [] /\ released t = []
  /\ Forall (fun jd => snd jd = d) (spawned t)
  /\ Forall (fun jd => snd jd = d) (computed t).
Proof.
  induction 1 as [|ev t Hev _ (Hs & Ha & Hr & Hsp & Hc)]; simpl.
  - repeat split; constructor.
  - destruct ev; simpl in Hev; try discriminate Hev; repeat split; auto;
      constructor; auto; apply device_id_inj, Nat.eqb_eq, Hev.
Qed.

(** The trace of an iteration that holds device [d]. *)
Lemma poll_iteration_trace (cfg : config) (w : world) (wait : Z) (p : pool_t)
    (d : Device) (rest : pool_t) :
  take_nth (Nat.modulo (pool_choice w) (List.length p)) p = Some (d, rest) ->
  exists z u,
    poll_iteration cfg w wait p
      = (Ok z, rest ++ [d],
         Sleep wait :: PoolRemove d
           :: (trace (ask_for_work cfg w d rest) ++ u) ++ [PoolAdd d])
    /\ wait_tier z
    /\ (u = [] \/ exists e, u = [Print (MsgException e)]).
Proof.
  intros Hd.
  destruct (poll_iteration_run cfg w wait p d rest Hd)
    as (z & u & E & _ & _ & Hz & Hok & Hraise).
  exists z, u; split; [exact E|]; split; [exact Hz|].
  destruct (ask_for_work_run cfg w d rest)
    as [(e & _ & A) | (mem & y & t & _ & A & _)].
  - right; exists e; apply (Hraise e); rewrite A; reflexivity.
  - left; apply (Hok y); rewrite A; reflexivity.
Qed.

(** ** Jobs run on the leased device *)

(** X8: within an iteration, every job is dispatched and computed on the device
    the iteration took from the pool, and on no other. *)
Theorem jobs_run_on_leased_device (cfg : config) (w : world) (wait : Z)
    (p : pool_t) (d : Device) (rest : pool_t) :
  take_nth (Nat.modulo (pool_choice w) (List.length p)) p = Some (d, rest) ->
  acquired (trace (poll_iteration cfg w wait p)) = [d]
  /\ Forall (fun jd => snd jd = d)
       (spawned (trace (poll_iteration cfg w wait p)))
  /\ Forall (fun jd => snd jd = d)
       (computed (trace (poll_iteration cfg w wait p))).
Proof.
  intros Hd.
  destruct (poll_iteration_trace cfg w wait p d rest Hd)
    as (z & u & -> & _ & Hu).
  destruct (within_lease_trace d _ (ask_for_work_within cfg w d rest))
    as (_ & Ha & _ & Hs & Hc).
  unfold trace at 1 3 5; simpl.
  rewrite !acquired_app, !spawned_app, !computed_app, Ha.
  destruct Hu as [-> | [e ->]]; simpl; rewrite !app_nil_r; auto.
Qed.

Lemma jobs_run_on_leased_device_witness :
  acquired (trace (poll_iteration Sample.cfg0 Sample.w_two_jobs 0
                     [Sample.d0; Sample.d1])) = [Sample.d0]
  /\ Forall (fun jd => snd jd = Sample.d0)
       (spawned (trace (poll_iteration Sample.cfg0 Sample.w_two_jobs 0
                          [Sample.d0; Sample.d1])))
  /\ Forall (fun jd => snd jd = Sample.d0)
       (computed (trace (poll_iteration Sample.cfg0 Sample.w_two_jobs 0
                           [Sample.d0; Sample.d1]))).
Proof.
  exact (jobs_run_on_leased_device Sample.cfg0 Sample.w_two_jobs 0
           [Sample.d0; Sample.d1] Sample.d0 [Sample.d1] eq_refl).
Defined.

(** ** Whole runs of the loop *)

(** What one iteration leaves in the trace. *)
Lemma poll_iteration_readings (cfg : config) (w : world) (wait : Z)
    (p : pool_t) :
  (p = [] /\ poll_iteration cfg w wait p = (Block, [], [Sleep wait]))
  \/ (exists d rest z t,
        take_nth (Nat.modulo (pool_choice w) (List.length p)) p
          = Some (d, rest)
        /\ poll_iteration cfg w wait p = (Ok z, rest ++ [d], t)
        /\ wait_tier z
        /\ sleeps t = [wait] /\ acquired t = [d] /\ released t = [d]
        /\ (requests t = []
            \/ exists mem, requests t = [work_request cfg d mem])).
Proof.
  destruct p as [|x p]; [left; split; reflexivity|right].
  destruct (remove_device_some (pool_choice w) (x :: p)) as (d & rest & Hd);
    [discriminate|].
  destruct (poll_iteration_trace cfg w wait (x :: p) d rest Hd)
    as (z & u & E & Hz & Hu).
  destruct (within_lease_trace d _ (ask_for_work_within cfg w d rest))
    as (Hs & Ha & Hr & _).
  assert (Hq : requests (trace (ask_for_work cfg w d rest)) = []
               \/ exists mem,
                    requests (trace (ask_for_work cfg w d rest))
                      = [work_request cfg d mem]).
  { destruct (ask_for_work_run cfg w d rest)
      as [(e & _ & ->) | (mem & y & t & _ & -> & _ & _ & _ & _ & Qq)].
    - left; reflexivity.
    - right; exists mem; unfold trace; simpl; rewrite Qq; reflexivity. }
  eexists d, rest, z, _; split; [exact Hd|]; split; [exact E|].
  split; [exact Hz|]; simpl.
  rewrite !sleeps_app, !acquired_app, !released_app, !requests_app, Hs, Ha, Hr.
  destruct Hu as [-> | [e ->]]; simpl; rewrite ?app_nil_r; auto.
Qed.

Lemma In_after_release (d : Device) (rest p : pool_t) (x : Device) :
  Permutation p (d :: rest) -> In x (rest ++ [d]) -> In x p.
Proof.
  intros Hp Hx; apply Permutation_in with (d :: rest);
    [apply Permutation_sym, Hp|].
  apply in_app_or in Hx; destruct Hx as [Hx | [-> | []]];
    [right; exact Hx | left; reflexivity].
Qed.

(** What [n] iterations leave in the trace, whatever the pool they start
    on. *)
Lemma poll_loop_readings (cfg : config) (worlds : nat -> world) (n : nat) :
  forall (k : nat) (wait : Z) (p : pool_t),
    acquired (trace (poll_loop cfg worlds n k wait p))
      = released (trace (poll_loop cfg worlds n k wait p))
    /\ (List.length (acquired (trace (poll_loop cfg worlds n k wait p)))
        <= n)%nat
    /\ Forall (fun d => In d p)
         (acquired (trace (poll_loop cfg worlds n k wait p)))
    /\ (List.length (requests (trace (poll_loop cfg worlds n k wait p)))
        <= n)%nat
    /\ Forall (fun rq => exists d mem,
                   In d p /\ rq = work_request cfg d mem)
         (requests (trace (poll_loop cfg worlds n k wait p)))
    /\ (wait_tier wait ->
        Forall wait_tier (sleeps (trace (poll_loop cfg worlds n k wait p))))
    /\ (p <> [] ->
        List.length (sleeps (trace (poll_loop cfg worlds n k wait p))) = n)
    /\ hd_error (sleeps (trace (poll_loop cfg worlds n k wait p)))
       = match n with O => None | S _ => Some wait end.
Proof.
  induction n as [|n IH]; intros k wait p.
  - simpl; repeat split; auto; constructor.
  - simpl poll_loop; unfold bind.
    destruct (poll_iteration_readings cfg (worlds k) wait p)
      as [[-> ->] | (d & rest & z & t & Hd & -> & Hz & Hs & Ha & Hr & Hq)].
    + unfold trace; simpl; repeat split; auto; try lia; try constructor.
      intros H; contradiction H; reflexivity.
    + pose proof (take_nth_perm _ _ _ _ Hd) as Hperm.
      specialize (IH (S k) z (rest ++ [d])).
      destruct (poll_loop cfg worlds n (S k) z (rest ++ [d]))
        as [[r p'] t'].
      unfold trace in *; simpl in *.
      destruct IH as (Iar & Ial & Iin & Iql & Iq & Isl & Ilen & _).
      rewrite !acquired_app, !released_app, !requests_app, !sleeps_app,
        Hs, Ha, Hr; simpl.
      assert (Hin : In d p)
        by (apply Permutation_in with (d :: rest);
            [apply Permutation_sym, Hperm | left; reflexivity]).
      repeat split.
      * rewrite Iar; reflexivity.
      * lia.
      * constructor; [exact Hin|].
        eapply Forall_impl; [|exact Iin].
        intros x Hx; apply (In_after_release d rest p x Hperm Hx).
      * rewrite length_app; destruct Hq as [-> | [mem ->]]; simpl; lia.
      * apply Forall_app; split.
        -- destruct Hq as [-> | [mem ->]]; repeat constructor.
           exists d, mem; auto.
        -- eapply Forall_impl; [|exact Iq].
           intros rq (x & mem & Hx & ->); exists x, mem; split; [|reflexivity].
           apply (In_after_release d rest p x Hperm Hx).
      * intros Hw; constructor; [exact Hw | apply Isl, Hz].
      * intros _; rewrite Ilen; [reflexivity|].
        intros Hnil; apply app_eq_nil in Hnil; destruct Hnil as [_ Hnil].
        discriminate Hnil.
Qed.

(** X9: over any number of iterations, on any pool, the devices the loop takes
    are the devices it gives back, in the same order; it takes at most one
    per iteration, and only devices of the pool it started on. *)
Theorem leases_are_balanced (cfg : config) (worlds : nat -> world)
    (n k : nat) (wait : Z) (p : pool_t) :
  acquired (trace (poll_loop cfg worlds n k wait p))
    = released (trace (poll_loop cfg worlds n k wait p))
  /\ (List.length (acquired (trace (poll_loop cfg worlds n k wait p)))
      <= n)%nat
  /\ Forall (fun d => In d p)
       (acquired (trace (poll_loop cfg worlds n k wait p))).
Proof.
  destruct (poll_loop_readings cfg worlds n k wait p) as (H1 & H2 & H3 & _).
  auto.
Qed.

Lemma at_startup_trace (t : list event) :
  Forall (fun ev => at_startup ev = true) t ->
  sleeps t = [] /\ requests t = [] /\ acquired t = [].
Proof.
  induction 1 as [|ev t Hev _ (Hs & Hq & Ha)]; simpl; [auto|].
  destruct ev; simpl in Hev; try discriminate Hev; auto.
Qed.

Section RunReadings.

Variable Version : Type.
Variable version_parse : string -> option Version.
Variable version_lt : Version -> Version -> bool.
Variable cfg : config.
Variable rt : torch_runtime.

Lemma add_devices_at_startup (ids : list nat) :
  only at_startup (add_devices rt ids).
Proof.
  induction ids as [|i ids IH]; simpl; [apply only_ret|].
  apply only_bind; [apply only_emit; reflexivity | intros _].
  apply only_bind; [|intros _; exact IH].
  intros p; repeat constructor.
Qed.

(** [startup] neither sleeps nor talks to the hive nor takes a device. *)
Lemma startup_at_startup :
  only at_startup (startup version_parse version_lt cfg rt).
Proof.
  unfold startup, parse.
  destruct (negb (cuda_is_available rt)); [apply only_raise|].
  apply only_bind; [repeat only_step | intros found].
  apply only_bind; [repeat only_step | intros minimum].
  destruct (version_lt found minimum); [apply only_raise|].
  repeat (apply only_bind; [apply only_emit; reflexivity | intros _]).
  apply add_devices_at_startup.
Qed.

(** The trace of a run that got through [startup]. *)
Lemma run_worker_trace (worlds : nat -> world) (n : nat) :
  result (startup version_parse version_lt cfg rt []) = Ok tt ->
  exists t0,
    Forall (fun ev => at_startup ev = true) t0
    /\ trace (run_worker version_parse version_lt cfg rt worlds n [])
       = t0 ++ LogInfo "worker"
            :: trace (poll_loop cfg worlds n 0 0 (enumeration rt)).
Proof.
  intros H.
  destruct (startup_inv Version version_parse version_lt cfg rt [] H)
    as (Ha & found & minimum & Hf & Hm & Hlt).
  destruct (startup_run Version version_parse version_lt cfg rt found minimum
              [] Ha Hf Hm Hlt) as (t0 & E & _).
  exists t0; split.
  - pose proof (startup_at_startup []) as O; rewrite E in O; exact O.
  - unfold run_worker, bind, emit; rewrite E; simpl.
    destruct (poll_loop cfg worlds n 0 0 (enumeration rt)) as [[r p'] t].
    reflexivity.
Qed.

End RunReadings.

(** X10: a run of [n] iterations sleeps [n] times: first for 0 seconds, then for
    the wait the iteration before ended with, so always for 0, 11 or 121
    seconds. *)
Theorem sleeps_of_a_run (Version : Type)
    (version_parse : string -> option Version)
    (version_lt : Version -> Version -> bool)
    (cfg : config) (rt : torch_runtime) (worlds : nat -> world) (n : nat) :
  result (startup version_parse version_lt cfg rt []) = Ok tt ->
  List.length
    (sleeps (trace (run_worker version_parse version_lt cfg rt worlds n [])))
    = n
  /\ Forall wait_tier
       (sleeps (trace (run_worker version_parse version_lt cfg rt worlds n [])))
  /\ hd_error
       (sleeps (trace (run_worker version_parse version_lt cfg rt worlds n [])))
     = match n with O => None | S _ => Some 0 end.
Proof.
  intros H.
  destruct (run_worker_trace Version version_parse version_lt cfg rt worlds n H)
    as (t0 & H0 & ->).
  destruct (at_startup_trace t0 H0) as (Hs0 & _ & _).
  destruct (run_worker_run Version version_parse version_lt cfg rt H)
    as (Hne & _).
  destruct (poll_loop_readings cfg worlds n 0 0 (enumeration rt))
    as (_ & _ & _ & _ & _ & Hs & Hl & Hh).
  rewrite sleeps_app, Hs0; simpl.
  split; [apply Hl, Hne|]; split; [apply Hs; left; reflexivity | exact Hh].
Qed.

Lemma sleeps_of_a_run_witness :
  List.length
    (sleeps (trace (run_worker Sample.release_parse Sample.release_lt
                      Sample.cfg0 Sample.rt0 (fun _ => Sample.w_no_work)
                      3 []))) = 3%nat
  /\ Forall wait_tier
       (sleeps (trace (run_worker Sample.release_parse Sample.release_lt
                         Sample.cfg0 Sample.rt0 (fun _ => Sample.w_no_work)
                         3 [])))
  /\ hd_error
       (sleeps (trace (run_worker Sample.release_parse Sample.release_lt
                         Sample.cfg0 Sample.rt0 (fun _ => Sample.w_no_work)
                         3 []))) = Some 0.
Proof.
  exact (sleeps_of_a_run (list nat) Sample.release_parse Sample.release_lt
           Sample.cfg0 Sample.rt0 (fun _ => Sample.w_no_work) 3 eq_refl).
Defined.

(** X11: a run of [n] iterations sends at most [n] work requests, each in the
    name of a device that [startup] enumerated. *)
Theorem requests_of_a_run (Version : Type)
    (version_parse : string -> option Version)
    (version_lt : Version -> Version -> bool)
    (cfg : config) (rt : torch_runtime) (worlds : nat -> world) (n : nat) :
  result (startup version_parse version_lt cfg rt []) = Ok tt ->
  (List.length
     (requests (trace (run_worker version_parse version_lt cfg rt worlds n [])))
   <= n)%nat
  /\ Forall (fun rq => exists i mem,
                 (i < cuda_device_count rt)%nat
                 /\ rq = work_request cfg (mk_Device i) mem)
       (requests (trace (run_worker version_parse version_lt cfg rt worlds n []))).
Proof.
  intros H.
  destruct (run_worker_trace Version version_parse version_lt cfg rt worlds n H)
    as (t0 & H0 & ->).
  destruct (at_startup_trace t0 H0) as (_ & Hq0 & _).
  destruct (poll_loop_readings cfg worlds n 0 0 (enumeration rt))
    as (_ & _ & _ & Hl & Hq & _).
  rewrite requests_app, Hq0; simpl.
  split; [exact Hl|].
  eapply Forall_impl; [|exact Hq].
  intros rq (d & mem & Hd & ->).
  unfold enumeration in Hd; apply in_map_iff in Hd.
  destruct Hd as (i & <- & Hi); apply in_seq in Hi.
  exists i, mem; split; [lia | reflexivity].
Qed.

Lemma requests_of_a_run_witness :
  (List.length
     (requests (trace (run_worker Sample.release_parse Sample.release_lt
                         Sample.cfg0 Sample.rt0 (fun _ => Sample.w_no_work)
                         3 []))) <= 3)%nat
  /\ Forall (fun rq => exists i mem,
                 (i < cuda_device_count Sample.rt0)%nat
                 /\ rq = work_request Sample.cfg0 (mk_Device i) mem)
       (requests (trace (run_worker Sample.release_parse Sample.release_lt
                           Sample.cfg0 Sample.rt0 (fun _ => Sample.w_no_work)
                           3 []))).
Proof.
  exact (requests_of_a_run (list nat) Sample.release_parse Sample.release_lt
           Sample.cfg0 Sample.rt0 (fun _ => Sample.w_no_work) 3 eq_refl).
Defined.

(** ** The remaining answers of the hive *)

(** X1: a status other than 200 and 400 is printed; from 400 on it raises inside
    the [try] block, which answers 121, and below 400 the work request
    returns 11. *)
Theorem other_status_answers (cfg : config) (w : world) (d : Device)
    (mem : mem_info) (resp : response) (p : pool_t) :
  mem_get_info w (device_id d) = inr mem ->
  session_get w (work_request cfg d mem) = inr resp ->
  status resp <> 200 ->
  status resp <> 400 ->
  ask_for_work cfg w d p
    = (Ok (if 400 <=? status resp then 121 else 11), p,
       [ Print (MsgAsking (device_id d) (hive_uri cfg));
         MemGetInfo (device_id d);
         HttpGet (work_request cfg d mem);
         Print (MsgReturned (hive_uri cfg) (status resp)) ]
       ++ (if 400 <=? status resp
           then [Print (MsgRequestError
                          (mk_exn ClientResponseError (reason resp)))]
           else [])).
Proof.
  intros Hmem Hget H200 H400.
  unfold ask_for_work, request_exchange, raise_for_status, bind, print, emit,
    await, try_except.
  simpl; rewrite Hmem; simpl; rewrite Hget; simpl.
  rewrite (proj2 (Z.eqb_neq _ _) H200), (proj2 (Z.eqb_neq _ _) H400); simpl.
  destruct (400 <=? status resp); reflexivity.
Qed.

Lemma other_status_answers_witness :
  ask_for_work Sample.cfg0 Sample.w_server_error Sample.d0 [Sample.d1]
    = (Ok 121, [Sample.d1],
       [ Print (MsgAsking 0 (hive_uri Sample.cfg0));
         MemGetInfo 0;
         HttpGet (work_request Sample.cfg0 Sample.d0 Sample.mem0);
         Print (MsgReturned (hive_uri Sample.cfg0) 503);
         Print (MsgRequestError
                  (mk_exn ClientResponseError "Service Unavailable")) ])
  /\ ask_for_work Sample.cfg0 Sample.w_no_content Sample.d0 [Sample.d1]
     = (Ok 11, [Sample.d1],
        [ Print (MsgAsking 0 (hive_uri Sample.cfg0));
          MemGetInfo 0;
          HttpGet (work_request Sample.cfg0 Sample.d0 Sample.mem0);
          Print (MsgReturned (hive_uri Sample.cfg0) 204) ]).
Proof.
  split.
  - refine (other_status_answers Sample.cfg0 Sample.w_server_error Sample.d0
              Sample.mem0 Sample.unavailable [Sample.d1]
              eq_refl eq_refl _ _); discriminate.
  - refine (other_status_answers Sample.cfg0 Sample.w_no_content Sample.d0
              Sample.mem0 Sample.no_content [Sample.d1]
              eq_refl eq_refl _ _); discriminate.
Defined.

(** X2: the work request raises exactly when the memory query before its [try]
    block raises, with the exception of that query, and then no request has
    been sent. *)
Theorem work_request_raises_iff (cfg : config) (w : world) (d : Device)
    (p : pool_t) (e : exn) :
  (result (ask_for_work cfg w d p) = Raise e
   <-> mem_get_info w (device_id d) = inl e)
  /\ (mem_get_info w (device_id d) = inl e ->
      trace (ask_for_work cfg w d p)
        = [ Print (MsgAsking (device_id d) (hive_uri cfg));
            MemGetInfo (device_id d) ]).
Proof.
  destruct (ask_for_work_run cfg w d p)
    as [(e' & He & ->) | (mem & y & t & Hm & -> & _)];
    unfold result, trace; simpl; rewrite ?He, ?Hm.
  - split; [split; intros [= ->]; reflexivity | reflexivity].
  - split; [split; intros H; discriminate H | intros H; discriminate H].
Qed.

Lemma work_request_raises_iff_witness :
  result (ask_for_work Sample.cfg0 Sample.w_device_lost Sample.d0 [Sample.d1])
    = Raise Sample.boom
  /\ trace (ask_for_work Sample.cfg0 Sample.w_device_lost Sample.d0 [Sample.d1])
     = [ Print (MsgAsking 0 (hive_uri Sample.cfg0)); MemGetInfo 0 ].
Proof.
  split.
  - exact (proj2 (proj1 (work_request_raises_iff Sample.cfg0
                           Sample.w_device_lost Sample.d0 [Sample.d1]
                           Sample.boom)) eq_refl).
  - exact (proj2 (work_request_raises_iff Sample.cfg0 Sample.w_device_lost
                    Sample.d0 [Sample.d1] Sample.boom) eq_refl).
Defined.

(** X3: for a body that decodes to an object the work request always returns:
    0 exactly when [jobs] is a list with a job in it, and 11 otherwise. *)
Theorem object_answers (cfg : config) (w : world) (d : Device)
    (mem : mem_info) (resp : response) (fields : list (string * json))
    (p : pool_t) :
  mem_get_info w (device_id d) = inr mem ->
  session_get w (work_request cfg d mem) = inr resp ->
  status resp = 200 ->
  json_body resp = inr (JObj fields) ->
  exists z,
    result (ask_for_work cfg w d p) = Ok z
    /\ (z = 0 \/ z = 11)
    /\ (z = 0 <->
        exists first others,
          dict_get "jobs" fields = Some (JArr (first :: others))).
Proof.
  intros Hmem Hget Hst Hb.
  destruct (dict_get "jobs" fields) as [v|] eqn:Hj.
  - assert (L : (exists items, v = JArr items) \/ (forall items, v <> JArr items))
      by (destruct v; try (right; intros items H; discriminate H);
          left; eexists; reflexivity).
    destruct L as [[items ->] | Hv].
    + destruct (ask_for_work_jobs cfg w d mem resp fields items p
                  Hmem Hget Hst Hb Hj) as [_ ->].
      destruct items as [|first others].
      * exists 11; split; [reflexivity|]; split; [auto|].
        split; [intros H; discriminate H | intros (f & o & H); discriminate H].
      * exists 0; split; [reflexivity|]; split; [auto|].
        split; [intros _; exists first, others; reflexivity | reflexivity].
    + rewrite (ask_for_work_200 cfg w d mem resp p 11 [Print MsgJobsNotList]
                 Hmem Hget Hst
                 (handle_status_200_malformed cfg w resp d MsgJobsNotList p
                    (jobs_not_list resp Hb Hj Hv))).
      exists 11; split; [reflexivity|]; split; [auto|].
      split; [intros H; discriminate H|].
      intros (f & o & [= H]); exfalso; exact (Hv _ H).
  - rewrite (ask_for_work_200 cfg w d mem resp p 11 [Print MsgJobsMissing]
               Hmem Hget Hst
               (handle_status_200_malformed cfg w resp d MsgJobsMissing p
                  (jobs_missing resp Hb Hj))).
    exists 11; split; [reflexivity|]; split; [auto|].
    split; [intros H; discriminate H | intros (f & o & H); discriminate H].
Qed.

Lemma object_answers_witness :
  exists z,
    result (ask_for_work Sample.cfg0 Sample.w_two_jobs Sample.d0 [Sample.d1])
      = Ok z
    /\ (z = 0 \/ z = 11)
    /\ (z = 0 <->
        exists first others,
          dict_get "jobs" [("jobs", JArr [Sample.job1; Sample.job2])]
            = Some (JArr (first :: others))).
Proof.
  exact (object_answers Sample.cfg0 Sample.w_two_jobs Sample.d0 Sample.mem0
           (Sample.ok_response (JObj [("jobs", JArr [Sample.job1; Sample.job2])]))
           [("jobs", JArr [Sample.job1; Sample.job2])] [Sample.d1]
           eq_refl eq_refl eq_refl eq_refl).
Defined.

(** X4: a body that decodes to something else than an object is not rejected
    by the three checks of [handle_status_200]: an array or a string that
    does not contain ["jobs"] passes for an answer without jobs (11); one
    that contains it, like [null], a boolean or a number, makes the checks
    themselves raise, which counts as an unknown error (121).  No job is
    dispatched either way. *)
Theorem non_object_answers (cfg : config) (w : world) (d : Device)
    (mem : mem_info) (resp : response) (body : json) (p : pool_t) :
  mem_get_info w (device_id d) = inr mem ->
  session_get w (work_request cfg d mem) = inr resp ->
  status resp = 200 ->
  json_body resp = inr body ->
  (forall fields, body <> JObj fields) ->
  spawned (trace (ask_for_work cfg w d p)) = []
  /\ result (ask_for_work cfg w d p)
     = Ok (match body with
           | JArr items => if existsb (json_is_str "jobs") items then 121 else 11
           | JStr s => if str_contains "jobs" s then 121 else 11
           | _ => 121
           end)
  /\ exists m,
       printed (trace (ask_for_work cfg w d p))
         = [MsgAsking (device_id d) (hive_uri cfg); m]
       /\ ((result (ask_for_work cfg w d p) = Ok 11 /\ m = MsgJobsMissing)
           \/ (result (ask_for_work cfg w d p) = Ok 121
               /\ exists e, exn_cls e = TypeError /\ m = MsgUnknownError e)).
Proof.
  intros Hmem Hget Hst Hb Hobj.
  unfold ask_for_work, request_exchange, handle_status_200, py_in, py_getitem,
    bind, print, emit, await, try_except.
  simpl; rewrite Hmem; simpl; rewrite Hget; simpl; rewrite Hst; simpl.
  rewrite Hb; simpl.
  assert (R : forall (x : exn),
            exn_cls x = TypeError ->
            exists m : message,
              [MsgAsking (device_id d) (hive_uri cfg); MsgUnknownError x]
                = [MsgAsking (device_id d) (hive_uri cfg); m]
              /\ ((@Ok Z 121 = Ok 11 /\ m = MsgJobsMissing)
                  \/ (@Ok Z 121 = Ok 121
                      /\ exists e, exn_cls e = TypeError
                                   /\ m = MsgUnknownError e))).
  { intros x Hx; eexists; split; [reflexivity|].
    right; split; [reflexivity|]; exists x; auto. }
  assert (L : exists m : message,
            [MsgAsking (device_id d) (hive_uri cfg); MsgJobsMissing]
              = [MsgAsking (device_id d) (hive_uri cfg); m]
            /\ ((@Ok Z 11 = Ok 11 /\ m = MsgJobsMissing)
                \/ (@Ok Z 11 = Ok 121
                    /\ exists e, exn_cls e = TypeError
                                 /\ m = MsgUnknownError e))).
  { eexists; split; [reflexivity|]; left; auto. }
  destruct body as [| b | z | s | items | fields]; simpl.
  - repeat split; apply R; reflexivity.
  - repeat split; apply R; reflexivity.
  - repeat split; apply R; reflexivity.
  - destruct (str_contains "jobs" s); simpl; repeat split;
      [apply R; reflexivity | exact L].
  - destruct (existsb (json_is_str "jobs") items); simpl; repeat split;
      [apply R; reflexivity | exact L].
  - exfalso; exact (Hobj fields eq_refl).
Qed.

Lemma non_object_answers_witness :
  spawned (trace (ask_for_work Sample.cfg0 Sample.w_null_body Sample.d0
                    [Sample.d1])) = []
  /\ result (ask_for_work Sample.cfg0 Sample.w_null_body Sample.d0 [Sample.d1])
     = Ok 121
  /\ exists m,
       printed (trace (ask_for_work Sample.cfg0 Sample.w_null_body Sample.d0
                         [Sample.d1]))
         = [MsgAsking 0 (hive_uri Sample.cfg0); m]
       /\ ((result (ask_for_work Sample.cfg0 Sample.w_null_body Sample.d0
                      [Sample.d1]) = Ok 11 /\ m = MsgJobsMissing)
           \/ (result (ask_for_work Sample.cfg0 Sample.w_null_body Sample.d0
                         [Sample.d1]) = Ok 121
               /\ exists e, exn_cls e = TypeError /\ m = MsgUnknownError e)).
Proof.
  refine (non_object_answers Sample.cfg0 Sample.w_null_body Sample.d0
            Sample.mem0 (Sample.ok_response JNull) JNull [Sample.d1]
            eq_refl eq_refl eq_refl eq_refl _).
  intros fields H; discriminate H.
Defined.

(** X5: when reading the body of a 200 answer fails with anything but a JSON
    decode error, [handle_status_200] does not handle it: the clauses of
    [ask_for_work] do, and the wait is 121 instead of 11. *)
Theorem unread_answer_backs_off (cfg : config) (w : world) (d : Device)
    (mem : mem_info) (resp : response) (e : exn) (p : pool_t) :
  mem_get_info w (device_id d) = inr mem ->
  session_get w (work_request cfg d mem) = inr resp ->
  status resp = 200 ->
  json_body resp = inl e ->
  isinstance e JSONDecodeError = false ->
  ask_for_work cfg w d p
    = (Ok 121, p,
       [ Print (MsgAsking (device_id d) (hive_uri cfg));
         MemGetInfo (device_id d);
         HttpGet (work_request cfg d mem);
         Print (failure_message e) ]).
Proof.
  intros Hmem Hget Hst Hb He.
  unfold ask_for_work, request_exchange, handle_status_200, bind, print, emit,
    await, try_except.
  simpl; rewrite Hmem; simpl; rewrite Hget; simpl; rewrite Hst; simpl.
  rewrite Hb; simpl; rewrite He; simpl.
  unfold failure_message; rewrite isinstance_Exception.
  destruct (isinstance e ClientConnectorError); [reflexivity|].
  destruct (isinstance e ClientError); [reflexivity|].
  destruct (isinstance e TimeoutError); reflexivity.
Qed.

Lemma unread_answer_backs_off_witness :
  ask_for_work Sample.cfg0 Sample.w_html_answer Sample.d0 [Sample.d1]
    = (Ok 121, [Sample.d1],
       [ Print (MsgAsking 0 (hive_uri Sample.cfg0));
         MemGetInfo 0;
         HttpGet (work_request Sample.cfg0 Sample.d0 Sample.mem0);
         Print (MsgRequestError (mk_exn ContentTypeError "text/html")) ]).
Proof.
  exact (unread_answer_backs_off Sample.cfg0 Sample.w_html_answer Sample.d0
           Sample.mem0 Sample.html_answer
           (mk_exn ContentTypeError "text/html") [Sample.d1]
           eq_refl eq_refl eq_refl eq_refl eq_refl).
Defined.

(** X6: a 400 answer whose body cannot be read, or does not decode to an
    object, never gets its message printed: reading it or taking the
    message raises first, and the clauses of [ask_for_work] print that
    exception and answer 121. *)
Theorem bad_request_without_message (cfg : config) (w : world) (d : Device)
    (mem : mem_info) (resp : response) (p : pool_t) :
  mem_get_info w (device_id d) = inr mem ->
  session_get w (work_request cfg d mem) = inr resp ->
  status resp = 400 ->
  (forall e,
     json_body resp = inl e ->
     ask_for_work cfg w d p
       = (Ok 121, p,
          [ Print (MsgAsking (device_id d) (hive_uri cfg));
            MemGetInfo (device_id d);
            HttpGet (work_request cfg d mem);
            Print (failure_message e) ]))
  /\ (forall body,
        json_body resp = inr body ->
        (forall fields, body <> JObj fields) ->
        exists e,
          (exn_cls e = TypeError \/ exn_cls e = AttributeError)
          /\ ask_for_work cfg w d p
             = (Ok 121, p,
                [ Print (MsgAsking (device_id d) (hive_uri cfg));
                  MemGetInfo (device_id d);
                  HttpGet (work_request cfg d mem);
                  Print (MsgUnknownError e) ])).
Proof.
  intros Hmem Hget Hst; split.
  - intros e Hb.
    unfold ask_for_work, request_exchange, handle_status_400, bind, print,
      emit, await, try_except.
    simpl; rewrite Hmem; simpl; rewrite Hget; simpl; rewrite Hst; simpl.
    rewrite Hb; simpl.
    unfold failure_message; rewrite isinstance_Exception.
    destruct (isinstance e ClientConnectorError); [reflexivity|].
    destruct (isinstance e ClientError); [reflexivity|].
    destruct (isinstance e TimeoutError); reflexivity.
  - intros body Hb Hobj.
    unfold ask_for_work, request_exchange, handle_status_400, py_pop, bind,
      print, emit, await, try_except.
    simpl; rewrite Hmem; simpl; rewrite Hget; simpl; rewrite Hst; simpl.
    rewrite Hb; simpl.
    destruct body as [| b | z | s | items | fields]; simpl;
      try (eexists; split; [|reflexivity]; simpl; auto; fail).
    exfalso; exact (Hobj fields eq_refl).
Qed.

Lemma bad_request_without_message_witness :
  ask_for_work Sample.cfg0 Sample.w_rejected_plain Sample.d0 [Sample.d1]
    = (Ok 121, [Sample.d1],
       [ Print (MsgAsking 0 (hive_uri Sample.cfg0));
         MemGetInfo 0;
         HttpGet (work_request Sample.cfg0 Sample.d0 Sample.mem0);
         Print (MsgUnknownError (mk_exn JSONDecodeError "Expecting value")) ]).
Proof.
  exact (proj1 (bad_request_without_message Sample.cfg0
                  Sample.w_rejected_plain Sample.d0 Sample.mem0
                  Sample.plain_rejection [Sample.d1] eq_refl eq_refl eq_refl)
           (mk_exn JSONDecodeError "Expecting value") eq_refl).
Defined.

(** ** What is computed and what is posted *)

Section PostFacts.

Variable cfg : config.
Variable w : world.
Variable d : Device.

(** A dispatch calls [do_work] once and posts at most once: the result,
    when the computation returned one that can be encoded. *)
Lemma spawn_task_io (i : nat) (job : json) (p : pool_t) :
  computed (trace (spawn_task cfg w i job d p)) = [(job, d)]
  /\ posted (trace (spawn_task cfg w i job d p))
     = match do_work w i job d with
       | inr (PyJson r) => [(results_request cfg, r)]
       | _ => []
       end.
Proof.
  unfold spawn_task, bind, try_except, emit, print, await; simpl.
  destruct (do_work w i job d) as [e|[j|]]; simpl;
    rewrite ?isinstance_Exception; simpl; try (split; reflexivity).
  destruct (session_post w i (results_request cfg) j) as [e|r]; simpl;
    rewrite ?isinstance_Exception; simpl; try (split; reflexivity).
  destruct (status r =? 500); simpl; try (split; reflexivity).
  destruct (json_body r) as [e|b]; simpl; rewrite ?isinstance_Exception;
    simpl; split; reflexivity.
Qed.

Lemma for_jobs_io (jobs : list json) :
  forall (i : nat) (b : bool) (p : pool_t),
    computed (trace (for_jobs cfg w i jobs d b p))
      = map (fun job => (job, d)) jobs
    /\ posted (trace (for_jobs cfg w i jobs d b p))
       = results_to_post cfg w i jobs d.
Proof.
  induction jobs as [|job rest IH]; intros i b p; simpl.
  - split; reflexivity.
  - unfold bind.
    destruct (spawn_task_io i job p) as [Hc Hp].
    destruct (spawn_task_run cfg w i job d p) as (t & E & _).
    rewrite E in Hc, Hp; rewrite E.
    destruct (IH (S i) true p) as [Ic Ip].
    destruct (for_jobs cfg w (S i) rest d true p) as [[r p'] t'].
    unfold trace in *; simpl in *.
    rewrite computed_app, posted_app; simpl.
    rewrite Hc, Hp, Ic, Ip; split; reflexivity.
Qed.

Lemma handle_status_200_jobs_trace (resp : response)
    (fields : list (string * json)) (items : list json) (p : pool_t) :
  json_body resp = inr (JObj fields) ->
  dict_get "jobs" fields = Some (JArr items) ->
  trace (handle_status_200 cfg w resp d p)
    = trace (for_jobs cfg w 0 items d false p)
  /\ result (handle_status_200 cfg w resp d p)
     = Ok (match items with [] => 11 | _ :: _ => 0 end)
  /\ pool_after (handle_status_200 cfg w resp d p) = p.
Proof.
  intros Hb Hj.
  unfold handle_status_200, bind, try_except, await, py_in, py_getitem.
  rewrite Hb; simpl; rewrite Hj; simpl; rewrite ?Hj; simpl.
  destruct (for_jobs_run cfg w items d 0%nat false p) as (t & E & _).
  rewrite E; simpl; rewrite app_nil_r.
  destruct items; repeat split; reflexivity.
Qed.

End PostFacts.

(** X7: for a list of jobs, [do_work] is called once per job, in the order of
    the list and on the leased device, and what is posted to the results
    endpoint is, in the same order, the result of every job whose
    computation returned one that can be encoded; a job that failed is
    neither retried nor reported. *)
Theorem results_posted_for_computed_jobs (cfg : config) (w : world)
    (d : Device) (mem : mem_info) (resp : response)
    (fields : list (string * json)) (items : list json) (p : pool_t) :
  mem_get_info w (device_id d) = inr mem ->
  session_get w (work_request cfg d mem) = inr resp ->
  status resp = 200 ->
  json_body resp = inr (JObj fields) ->
  dict_get "jobs" fields = Some (JArr items) ->
  computed (trace (ask_for_work cfg w d p)) = map (fun job => (job, d)) items
  /\ posted (trace (ask_for_work cfg w d p))
     = results_to_post cfg w 0 items d.
Proof.
  intros Hmem Hget Hst Hb Hj.
  destruct (handle_status_200_jobs_trace cfg w d resp fields items p Hb Hj)
    as (Ht & Hr & Hp).
  destruct (for_jobs_io cfg w d items 0%nat false p) as [Hc Hpost].
  destruct (handle_status_200 cfg w resp d p) as [[r p'] t] eqn:E.
  unfold trace, result, pool_after in Ht, Hr, Hp; simpl in Ht, Hr, Hp.
  subst r p' t.
  rewrite (ask_for_work_200 cfg w d mem resp p _ _ Hmem Hget Hst E).
  split; [exact Hc | exact Hpost].
Qed.

Lemma results_posted_for_computed_jobs_witness :
  computed (trace (ask_for_work Sample.cfg0 Sample.w_one_of_two Sample.d0
                     [Sample.d1]))
    = [(Sample.job1, Sample.d0); (Sample.job2, Sample.d0)]
  /\ posted (trace (ask_for_work Sample.cfg0 Sample.w_one_of_two Sample.d0
                      [Sample.d1]))
     = [(results_request Sample.cfg0, JStr "image")].
Proof.
  exact (results_posted_for_computed_jobs Sample.cfg0 Sample.w_one_of_two
           Sample.d0 Sample.mem0
           (Sample.ok_response (JObj [("jobs", JArr [Sample.job1; Sample.job2])]))
           [("jobs", JArr [Sample.job1; Sample.job2])]
           [Sample.job1; Sample.job2] [Sample.d1]
           eq_refl eq_refl eq_refl eq_refl eq_refl).
Defined.

(** ** The backoff has no memory *)

(** The wait after a run is the wait of its last iteration. *)
Lemma poll_loop_last (cfg : config) (worlds : nat -> world) (z : Z)
    (n : nat) :
  forall (k : nat) (wait : Z) (p : pool_t),
    p <> [] ->
    (forall wait' q,
       q <> [] ->
       result (poll_iteration cfg (worlds (k + n)%nat) wait' q) = Ok z) ->
    result (poll_loop cfg worlds (S n) k wait p) = Ok z.
Proof.
  induction n as [|n IH]; intros k wait p Hp Hlast.
  - rewrite Nat.add_0_r in Hlast; specialize (Hlast wait p Hp).
    simpl; unfold bind.
    destruct (poll_iteration cfg (worlds k) wait p) as [[r p'] t].
    unfold result in Hlast; simpl in Hlast; subst r; reflexivity.
  - change (poll_loop cfg worlds (S (S n)) k wait p)
      with (bind (poll_iteration cfg (worlds k) wait)
              (fun next => poll_loop cfg worlds (S n) (S k) next) p).
    unfold bind.
    destruct (poll_iteration_ok cfg (worlds k) wait p Hp)
      as (y & p1 & t1 & _ & -> & _ & Hperm & _).
    specialize (IH (S k) y p1 (perm_nonempty p1 p Hperm Hp)).
    destruct (poll_loop cfg worlds (S n) (S k) y p1) as [[r p2] t2].
    unfold result in *; simpl in *; apply IH.
    intros wait' q Hq; rewrite <- Nat.add_succ_r; apply Hlast, Hq.
Qed.

Lemma poll_iteration_by_answer (cfg : config) (w : world) (wait : Z)
    (p : pool_t) (z : Z) :
  p <> [] ->
  (forall d rest, result (ask_for_work cfg w d rest) = Ok z) ->
  result (poll_iteration cfg w wait p) = Ok z.
Proof.
  intros Hp Hw.
  destruct (remove_device_some (pool_choice w) p Hp) as (d & rest & Hd).
  destruct (poll_iteration_run cfg w wait p d rest Hd)
    as (y & u & -> & _ & _ & _ & Hok & _).
  destruct (Hok z (Hw d rest)) as [-> _]; reflexivity.
Qed.

(** X12: however the iterations before went, one answer of the hive sets the
    wait: 0 after an answer with jobs, 11 after an answer without, 121 after
    an exchange that failed.  Failures do not add up and successes are not
    remembered. *)
Theorem backoff_has_no_memory (cfg : config) (worlds : nat -> world)
    (n k : nat) (wait : Z) (p : pool_t) :
  p <> [] ->
  (work_available cfg (worlds (k + n)%nat) ->
   result (poll_loop cfg worlds (S n) k wait p) = Ok 0)
  /\ (no_work_available cfg (worlds (k + n)%nat) ->
      result (poll_loop cfg worlds (S n) k wait p) = Ok 11)
  /\ (exchange_fails cfg (worlds (k + n)%nat) ->
      result (poll_loop cfg worlds (S n) k wait p) = Ok 121).
Proof.
  intros Hp; split; [|split]; intros Hw;
    apply poll_loop_last; try exact Hp;
    intros wait' q Hq; apply poll_iteration_by_answer; try exact Hq;
    intros d rest.
  - destruct (Hw d)
      as (mem & resp & fields & first & others & Hmem & Hget & Hst & Hb & Hj).
    exact (proj2 (ask_for_work_jobs cfg (worlds (k + n)%nat) d mem resp fields
                    (first :: others) rest Hmem Hget Hst Hb Hj)).
  - destruct (Hw d) as (mem & resp & fields & Hmem & Hget & Hst & Hb & Hj).
    exact (proj2 (ask_for_work_jobs cfg (worlds (k + n)%nat) d mem resp fields
                    [] rest Hmem Hget Hst Hb Hj)).
  - destruct (Hw d) as (mem & e & Hmem & Hget).
    rewrite (ask_for_work_failed_exchange cfg (worlds (k + n)%nat) d mem e
               rest Hmem Hget).
    reflexivity.
Qed.

Lemma backoff_has_no_memory_witness :
  result (poll_loop Sample.cfg0 Sample.failures_then_work 4 0 0
            [Sample.d0; Sample.d1]) = Ok 0
  /\ result (poll_loop Sample.cfg0 Sample.work_then_failure 4 0 0
               [Sample.d0; Sample.d1]) = Ok 121.
Proof.
  assert (N : [Sample.d0; Sample.d1] <> []) by discriminate.
  split.
  - apply (proj1 (backoff_has_no_memory Sample.cfg0 Sample.failures_then_work
                    3 0 0 [Sample.d0; Sample.d1] N)).
    intros d.
    exists Sample.mem0,
      (Sample.ok_response (JObj [("jobs", JArr [Sample.job1; Sample.job2])])),
      [("jobs", JArr [Sample.job1; Sample.job2])], Sample.job1, [Sample.job2].
    repeat split; reflexivity.
  - apply (proj2 (proj2 (backoff_has_no_memory Sample.cfg0
                           Sample.work_then_failure 3 0 0
                           [Sample.d0; Sample.d1] N))).
    intros d.
    exists Sample.mem0, (mk_exn ClientConnectorError "connection refused").
    split; reflexivity.
Defined.

(** ** The address of the hive and the names of the workers *)

Lemma rstrip_repeat (c : ascii) (k : nat) :
  rstrip c (str_repeat c k) = EmptyString.
Proof.
  induction k as [|k IH]; simpl; [reflexivity|].
  rewrite IH, Ascii.eqb_refl; reflexivity.
Qed.

Lemma rstrip_app_repeat (c : ascii) (s : string) (k : nat) :
  rstrip c (s ++ str_repeat c k)%string = rstrip c s.
Proof.
  induction s as [|a s IH]; simpl; [apply rstrip_repeat|].
  rewrite IH; reflexivity.
Qed.

Lemma rstrip_decomp (c : ascii) (s : string) :
  exists k, s = (rstrip c s ++ str_repeat c k)%string.
Proof.
  induction s as [|a s [k IH]]; simpl; [exists 0%nat; reflexivity|].
  destruct (rstrip c s) as [|a0 s0] eqn:E.
  - destruct (Ascii.eqb_spec a c) as [->|_].
    + exists (S k); simpl in *; rewrite <- IH; reflexivity.
    + exists k; simpl in *; rewrite <- IH; reflexivity.
  - exists k; simpl in *; rewrite <- IH; reflexivity.
Qed.

Lemma rstrip_ends (c : ascii) (s : string) : ends_with c (rstrip c s) = false.
Proof.
  induction s as [|a s IH]; simpl; [reflexivity|].
  destruct (rstrip c s) as [|a0 s0] eqn:E.
  - destruct (Ascii.eqb a c) eqn:Ea; simpl; [reflexivity | exact Ea].
  - exact IH.
Qed.

(** X13: the address of the hive is the configured address without its trailing
    slashes, followed by [/api]: configured with or without trailing slashes,
    the worker talks to the same address. *)
Theorem hive_uri_normalised (cfg : config) :
  (exists base k,
     sdaas_uri (settings cfg) = (base ++ str_repeat "/"%char k)%string
     /\ ends_with "/"%char base = false
     /\ hive_uri cfg = (base ++ "/api")%string)
  /\ (forall cfg' k,
        sdaas_uri (settings cfg')
          = (sdaas_uri (settings cfg) ++ str_repeat "/"%char k)%string ->
        hive_uri cfg' = hive_uri cfg).
Proof.
  split.
  - destruct (rstrip_decomp "/"%char (sdaas_uri (settings cfg))) as [k Hk].
    exists (rstrip "/"%char (sdaas_uri (settings cfg))), k.
    split; [exact Hk|]; split; [apply rstrip_ends | reflexivity].
  - intros cfg' k H; unfold hive_uri; rewrite H, rstrip_app_repeat.
    reflexivity.
Qed.

Lemma hive_uri_normalised_witness :
  hive_uri Sample.cfg0 = hive_uri Sample.cfg_plain
  /\ hive_uri Sample.cfg_plain = "https://hive.example/api".
Proof.
  split; [|reflexivity].
  exact (proj2 (hive_uri_normalised Sample.cfg_plain) Sample.cfg0 1%nat
           eq_refl).
Defined.

Lemma append_cancel (a b b' : string) :
  (a ++ b)%string = (a ++ b')%string -> b = b'.
Proof.
  induction a as [|c a IH]; simpl; [auto|].
  intros [= H]; apply IH, H.
Qed.

Lemma to_uint_nonnil (n : nat) : Nat.to_uint n <> Decimal.Nil.
Proof.
  rewrite <- (DecimalNat.Unsigned.of_to n) at 1.
  rewrite DecimalNat.Unsigned.to_of.
  apply DecimalFacts.unorm_nonnil.
Qed.

(** Printing an ordinal loses nothing. *)
Lemma str_of_nat_inj (n m : nat) : str_of_nat n = str_of_nat m -> n = m.
Proof.
  unfold str_of_nat; intros H.
  apply DecimalNat.Unsigned.to_uint_inj.
  apply (f_equal NilZero.uint_of_string) in H.
  rewrite !NilZero.usu in H by apply to_uint_nonnil.
  injection H; auto.
Qed.

(** X14: under one configuration, requests with the same worker name are
    requests for the same device: the name tells the hive which device of
    the machine is asking. *)
Theorem worker_names_identify_devices (cfg : config) (d d' : Device)
    (mem mem' : mem_info) :
  param_get "worker_name" (rq_params (work_request cfg d mem))
    = param_get "worker_name" (rq_params (work_request cfg d' mem')) ->
  d = d'.
Proof.
  simpl; intros [= H].
  apply append_cancel in H; injection H as H.
  apply device_id_inj, str_of_nat_inj, H.
Qed.

Lemma worker_names_identify_devices_witness :
  param_get "worker_name"
    (rq_params (work_request Sample.cfg0 Sample.d1 Sample.mem0))
    = Some (PStr "rig:1")
  /\ Sample.d1 = Sample.d1.
Proof.
  split; [reflexivity|].
  exact (worker_names_identify_devices Sample.cfg0 Sample.d1 Sample.d1
           Sample.mem0 (2000, 8000) eq_refl).
Defined.
